(** * Learnifyverse backend ([app_backup.py]): request handlers over the
      storage facade, and the properties of the roadmap aggregate.

    The handlers are embedded as computations in a state-and-exception
    monad over a [World]: the tables of the storage facade, the source of
    fresh object ids, the clock and the journal of [save] calls.  A Python
    exception is a value of [exn]; state changes made before a [raise]
    stay (the handlers never roll back). *)

From stdpp Require Import base option list strings gmap fin_maps sorting pretty.
From Stdlib Require Import ZArith Lia.

Local Open Scope Z_scope.

(** ** Decoded JSON, Python text *)

Local Unset Elimination Schemes.

(** A decoded JSON value as [request.json] holds it.  Numbers are the
    integers; an object keeps its members as an association list whose
    keys are distinct. *)
Inductive json :=
  | JNull
  | JBool (b : bool)
  | JNum (n : Z)
  | JStr (s : string)
  | JArr (items : list json)
  | JObj (members : list (string * json)).

(** Python truthiness: [None], [False], [0], [''], [[]] and [{}] are falsy. *)
Definition truthy (v : json) : bool :=
  match v with
  | JNull => false
  | JBool b => b
  | JNum n => negb (n =? 0)
  | JStr s => negb (String.eqb s "")
  | JArr items => match items with [] => false | _ => true end
  | JObj members => match members with [] => false | _ => true end
  end.

(** [v == 'literal'] for a string literal. *)
Definition eq_str (v : json) (lit : string) : bool :=
  match v with
  | JStr s => String.eqb s lit
  | _ => false
  end.

Fixpoint assoc {A} (k : string) (d : list (string * A)) : option A :=
  match d with
  | [] => None
  | (k', v) :: d => if String.eqb k' k then Some v else assoc k d
  end.

(** [d.get(k)]: the member, [None] when the key is absent. *)
Definition dict_get (d : list (string * json)) (k : string) : json :=
  default JNull (assoc k d).

(** Text built by the program: literal pieces, and the [repr] of a
    container that [str] or an f-string interpolates. *)
Inductive piece :=
  | Lit (s : string)
  | Repr (v : json).

Definition text := list piece.

(** Python's [str] on a decoded JSON value. *)
Definition py_str (v : json) : text :=
  match v with
  | JNull => [Lit "None"]
  | JBool true => [Lit "True"]
  | JBool false => [Lit "False"]
  | JNum n => [Lit (pretty n)]
  | JStr s => [Lit s]
  | _ => [Repr v]
  end.

(** A value handed to [jsonify]. *)
Inductive pyval :=
  | PText (t : text)
  | PVal (v : json)
  | PList (items : list pyval)
  | PDict (members : list (string * pyval)).

Local Set Elimination Schemes.

(** ** Exceptions and responses *)

(** An exception; a [ValueError] carries its arguments ([e.args]), of
    which there may be none. *)
Inductive exn :=
  | HTTPException (code : Z) (description : text)
  | KeyError (key : string)
  | TypeError (msg : string)
  | IndexError (msg : string)
  | ValueError (args : list json).

Definition http_status_name (code : Z) : string :=
  if decide (code = 400) then "Bad Request"
  else if decide (code = 403) then "Forbidden"
  else if decide (code = 404) then "Not Found"
  else "Unknown Error".

(** The [repr] of a tuple of two or more values, without its
    parentheses. *)
Fixpoint tuple_items (args : list json) : text :=
  match args with
  | [] => []
  | [v] => [Repr v]
  | v :: rest => Repr v :: Lit ", " :: tuple_items rest
  end.

(** [str(e)]; for an exception with arguments it is empty for none,
    [str] of the argument for one, and the [repr] of the tuple of all
    for more. *)
Definition exn_str (e : exn) : text :=
  match e with
  | HTTPException code description =>
      [Lit (pretty code); Lit " "; Lit (http_status_name code); Lit ": "] ++ description
  | KeyError key => [Repr (JStr key)]
  | TypeError msg => [Lit msg]
  | IndexError msg => [Lit msg]
  | ValueError [] => []
  | ValueError [v] => py_str v
  | ValueError args => [Lit "("] ++ tuple_items args ++ [Lit ")"]
  end.

(** [e.args[0]] *)
Definition first_arg (args : list json) : exn + json :=
  match args with
  | v :: _ => inr v
  | [] => inl (IndexError "tuple index out of range")
  end.

Inductive content :=
  | JSON (v : pyval)
  | ErrorPage.

Record response := Response { body : content; status : Z }.

Definition jsonify (v : pyval) : content := JSON v.

(** ** The data model *)

Module User.
Record t := Build {
  id : string;
  first_name : option string;
  last_name : option string;
  email : option string;
  hashed_password : option string;
  session_id : option string;
  reset_token : option string
}.
End User.

Module Roadmap.
Record t := Build {
  id : string;
  user_id : json;
  title : json;
  introduction : json;
  AdditionalInfo : json;
  planning : bool;
  in_progress : bool;
  completed : bool;
  created_at : Z
}.

(** attribute assignments [roadmap.planning = b] and the like *)
Definition set_planning (b : bool) (r : t) : t :=
  Build (id r) (user_id r) (title r) (introduction r) (AdditionalInfo r)
        b (in_progress r) (completed r) (created_at r).
Definition set_in_progress (b : bool) (r : t) : t :=
  Build (id r) (user_id r) (title r) (introduction r) (AdditionalInfo r)
        (planning r) b (completed r) (created_at r).
Definition set_completed (b : bool) (r : t) : t :=
  Build (id r) (user_id r) (title r) (introduction r) (AdditionalInfo r)
        (planning r) (in_progress r) b (created_at r).

(** Modelled from the spec: [to_dict] of the models package (not in the
    sources), the record's columns as the data model lists them. *)
Definition to_dict (r : t) : pyval :=
  PDict [("id", PVal (JStr (id r)));
         ("user_id", PVal (user_id r));
         ("title", PVal (title r));
         ("introduction", PVal (introduction r));
         ("AdditionalInfo", PVal (AdditionalInfo r));
         ("planning", PVal (JBool (planning r)));
         ("in_progress", PVal (JBool (in_progress r)));
         ("completed", PVal (JBool (completed r)));
         ("created_at", PVal (JNum (created_at r)))].
End Roadmap.

Module Topic.
Record t := Build {
  id : string;
  position : Z;
  roadmap_id : string;
  name : json;
  description : json;
  milestones : json
}.

(** Modelled from the spec: [to_dict] of the models package. *)
Definition to_dict (x : t) : pyval :=
  PDict [("id", PVal (JStr (id x)));
         ("position", PVal (JNum (position x)));
         ("roadmap_id", PVal (JStr (roadmap_id x)));
         ("name", PVal (name x));
         ("description", PVal (description x));
         ("milestones", PVal (milestones x))].
End Topic.

Module Objectives.
Record t := Build {
  id : string;
  name : json;
  topic_id : string
}.

(** Modelled from the spec: [to_dict] of the models package. *)
Definition to_dict (x : t) : pyval :=
  PDict [("id", PVal (JStr (id x)));
         ("name", PVal (name x));
         ("topic_id", PVal (JStr (topic_id x)))].
End Objectives.

Module Resources.
Record t := Build {
  id : string;
  link : json;
  topic_id : string
}.

(** Modelled from the spec: [to_dict] of the models package. *)
Definition to_dict (x : t) : pyval :=
  PDict [("id", PVal (JStr (id x)));
         ("link", PVal (link x));
         ("topic_id", PVal (JStr (topic_id x)))].
End Resources.

(** An object of one of the five model classes. *)
Inductive object :=
  | OUser (u : User.t)
  | ORoadmap (r : Roadmap.t)
  | OTopic (t : Topic.t)
  | OObjectives (o : Objectives.t)
  | OResources (r : Resources.t).

(** ** The world of a request *)

(** Modelled from the spec: the storage facade of the models package (not
    in the sources), a generic object store keyed by entity type and id:
    one table per entity type, keyed by object id. *)
Record Tables := MkTables {
  users : gmap string User.t;
  roadmaps : gmap string Roadmap.t;
  topics : gmap string Topic.t;
  objectives : gmap string Objectives.t;
  resources : gmap string Resources.t
}.

(** [next_id] numbers the ids handed out so far, [clock] is the time a
    new object is stamped with, and [journal] lists the [save] calls in
    order, each with the tables it met. *)
Record World := MkWorld {
  db : Tables;
  next_id : nat;
  clock : Z;
  journal : list (object * Tables)
}.

Definition M (A : Type) : Type := World → (exn + A) * World.

Definition ret {A} (a : A) : M A := λ w, (inr a, w).

Definition bind {A B} (m : M A) (k : A → M B) : M B :=
  λ w, match m w with
       | (inl e, w') => (inl e, w')
       | (inr a, w') => k a w'
       end.

Definition raise {A} (e : exn) : M A := λ w, (inl e, w).

(** [try: body  except Exception as e: handler e] *)
Definition try_except {A} (body : M A) (handler : exn → M A) : M A :=
  λ w, match body w with
       | (inl e, w') => handler e w'
       | (inr a, w') => (inr a, w')
       end.

Notation "'let!' x ':=' m 'in' k" := (bind m (λ x, k))
  (at level 10, x name, m at level 100, k at level 200).
Notation "'do!' m 'in' k" := (bind m (λ _, k))
  (at level 10, m at level 100, k at level 200).

(** [abort(code, description=...)] raises the HTTP exception of that code. *)
Definition abort {A} (code : Z) (description : text) : M A :=
  raise (HTTPException code description).

(** ** The storage facade *)

Module storage.

(** Modelled from the spec: [show(type, id)] of the storage facade, the
    stored object of that type and id, [None] when there is none. *)
Definition show_Roadmap (id : string) : M (option Roadmap.t) :=
  λ w, (inr (roadmaps (db w) !! id), w).

(** The id of a user arrives as a JSON value; only a string names a
    stored object. *)
Definition show_User (id : json) : M (option User.t) :=
  λ w, (inr (match id with JStr s => users (db w) !! s | _ => None end), w).

(** Modelled from the spec: [all(type)] of the storage facade, the
    dictionary of every stored object of that type. *)
Definition all_Roadmap : M (gmap string Roadmap.t) :=
  λ w, (inr (roadmaps (db w)), w).

(** Modelled from the spec: [fetch(type, parent_id)] of the storage
    facade, the dictionary of the stored objects of that type whose
    parent is [parent_id]. *)
Definition fetch_Topic (parent_id : string) : M (gmap string Topic.t) :=
  λ w, (inr (filter (λ kv, Topic.roadmap_id kv.2 = parent_id) (topics (db w))), w).
Definition fetch_Objectives (parent_id : string) : M (gmap string Objectives.t) :=
  λ w, (inr (filter (λ kv, Objectives.topic_id kv.2 = parent_id) (objectives (db w))), w).
Definition fetch_Resources (parent_id : string) : M (gmap string Resources.t) :=
  λ w, (inr (filter (λ kv, Resources.topic_id kv.2 = parent_id) (resources (db w))), w).

(** The tables after one object is written under its type and id. *)
Definition persist (o : object) (t : Tables) : Tables :=
  match o with
  | OUser u =>
      MkTables (<[User.id u := u]> (users t)) (roadmaps t) (topics t)
               (objectives t) (resources t)
  | ORoadmap r =>
      MkTables (users t) (<[Roadmap.id r := r]> (roadmaps t)) (topics t)
               (objectives t) (resources t)
  | OTopic x =>
      MkTables (users t) (roadmaps t) (<[Topic.id x := x]> (topics t))
               (objectives t) (resources t)
  | OObjectives x =>
      MkTables (users t) (roadmaps t) (topics t)
               (<[Objectives.id x := x]> (objectives t)) (resources t)
  | OResources x =>
      MkTables (users t) (roadmaps t) (topics t) (objectives t)
               (<[Resources.id x := x]> (resources t))
  end.

(** Modelled from the spec: [obj.save()], which hands the object to
    [save(obj)] of the storage facade: the object is written, and the
    call is journalled with the tables it met. *)
Definition save (o : object) : M unit :=
  λ w, (inr tt, MkWorld (persist o (db w)) (next_id w) (clock w)
                        (journal w ++ [(o, db w)])).

(** Modelled from the spec: [delete(obj)] followed by [save()]. *)
Definition delete_Roadmap (r : Roadmap.t) : M unit :=
  λ w, (inr tt,
        MkWorld (MkTables (users (db w)) (delete (Roadmap.id r) (roadmaps (db w)))
                          (topics (db w)) (objectives (db w)) (resources (db w)))
                (next_id w) (clock w) (journal w)).

End storage.

(** Modelled from the spec: ids are unique; the [n]-th object made gets
    the id [uuid4 n]. *)
Definition uuid4 (n : nat) : string := pretty n.

(** Modelled from the spec: the constructors of the models package give a
    new object a fresh id (and a roadmap its creation time) and keep the
    keyword arguments as its columns. *)
Definition new_id : M string :=
  λ w, (inr (uuid4 (next_id w)),
        MkWorld (db w) (S (next_id w)) (clock w) (journal w)).

Definition new_Roadmap (user_id title introduction AdditionalInfo : json)
    (planning in_progress completed : bool) : M Roadmap.t :=
  let! id := new_id in
  λ w, (inr (Roadmap.Build id user_id title introduction AdditionalInfo
                           planning in_progress completed (clock w)), w).

Definition new_Topic (position : Z) (roadmap_id : string)
    (name description milestones : json) : M Topic.t :=
  let! id := new_id in
  ret (Topic.Build id position roadmap_id name description milestones).

Definition new_Objectives (name : json) (topic_id : string) : M Objectives.t :=
  let! id := new_id in
  ret (Objectives.Build id name topic_id).

Definition new_Resources (link : json) (topic_id : string) : M Resources.t :=
  let! id := new_id in
  ret (Resources.Build id link topic_id).

(** ** Python built-ins the handlers use *)

(** The outcome of an expression that reads no state: a value, or the
    exception it raises. *)
Definition lift {A} (r : exn + A) : M A := λ w, (r, w).

(** [v[k]] for a string key [k]. *)
Definition py_getitem (v : json) (k : string) : exn + json :=
  match v with
  | JObj d => match assoc k d with
              | Some x => inr x
              | None => inl (KeyError k)
              end
  | JArr _ => inl (TypeError "list indices must be integers or slices, not str")
  | JStr _ => inl (TypeError "string indices must be integers, not 'str'")
  | JNum _ => inl (TypeError "'int' object is not subscriptable")
  | JBool _ => inl (TypeError "'bool' object is not subscriptable")
  | JNull => inl (TypeError "'NoneType' object is not subscriptable")
  end.

(** The items a [for] loop over [v] visits: the elements of a list, the
    characters of a string, the keys of a dictionary. *)
Definition py_iter (v : json) : exn + list json :=
  match v with
  | JArr items => inr items
  | JStr s => inr (map (λ c, JStr (String c EmptyString)) (String.list_ascii_of_string s))
  | JObj d => inr (map (λ kv, JStr kv.1) d)
  | JNum _ => inl (TypeError "'int' object is not iterable")
  | JBool _ => inl (TypeError "'bool' object is not iterable")
  | JNull => inl (TypeError "'NoneType' object is not iterable")
  end.

(** [for x in v[k]]: the subscript, then the items it yields. *)
Definition py_items (v : json) (k : string) : exn + list json :=
  match py_getitem v k with
  | inl e => inl e
  | inr x => py_iter x
  end.

(** [sorted(l, key=key, reverse=reverse)]: a stable sort, each element
    is placed before the first one it may precede. *)
Definition precedes (reverse : bool) (kx ky : Z) : bool :=
  if reverse then ky <=? kx else kx <=? ky.

Fixpoint insert_by {A} (key : A → Z) (reverse : bool) (x : A) (l : list A) : list A :=
  match l with
  | [] => [x]
  | y :: l' => if precedes reverse (key x) (key y) then x :: y :: l'
               else y :: insert_by key reverse x l'
  end.

Definition sorted {A} (l : list A) (key : A → Z) (reverse : bool) : list A :=
  foldr (insert_by key reverse) [] l.

(** [request.form.get(k)] *)
Definition form_get (form : list (string * string)) (k : string) : option string :=
  assoc k form.

Definition opt_str (o : option string) : json :=
  match o with
  | Some s => JStr s
  | None => JNull
  end.

(** ** The handlers *)

(** [PUT /update_roadmap_status/<roadmap_id>] *)
Definition update_roadmap_status (roadmap_id : string)
    (request_json : list (string * json)) : M response :=
  try_except
    (let! roadmap := storage.show_Roadmap roadmap_id in
     let! roadmap := match roadmap with
                     | None => abort 404 [Lit "Roadmap Not Found"]
                     | Some roadmap => ret roadmap
                     end in
     let new_status := dict_get request_json "new_status" in
     do! (if negb (truthy new_status)
          then abort 403 [Lit "Invalid Request body"]
          else ret tt) in
     let roadmap :=
       if eq_str new_status "planning" then
         Roadmap.set_completed false
           (Roadmap.set_in_progress false (Roadmap.set_planning true roadmap))
       else if eq_str new_status "in_progress" then
         Roadmap.set_completed false
           (Roadmap.set_planning false (Roadmap.set_in_progress true roadmap))
       else if eq_str new_status "completed" then
         Roadmap.set_in_progress false
           (Roadmap.set_planning false (Roadmap.set_completed true roadmap))
       else roadmap in
     do! storage.save (ORoadmap roadmap) in
     ret (Response
             (jsonify (PDict [("message",
                PText ([Lit "Roadmap status ("] ++ py_str new_status
                       ++ [Lit ") updated successfully"]))]))
             200))
    (λ e, ret (Response
                  (jsonify (PDict [("error",
                     PText ([Lit "An error occurred: "] ++ exn_str e))]))
                  500)).

(** [POST /users]; [AUTH_register_user] is [AUTH.register_user] of the
    auth package (not in the sources). *)
Definition register_user
    (AUTH_register_user :
       option string → option string → option string → option string → M User.t)
    (form : list (string * string)) : M response :=
  let first_name := form_get form "first_name" in
  let last_name := form_get form "last_name" in
  let email := form_get form "email" in
  let password := form_get form "password" in
  do! try_except
        (do! AUTH_register_user first_name last_name email password in
         ret tt)
        (λ e, match e with
              | ValueError _ => abort 400 [Lit "Email already registered"]
              | _ => raise e
              end) in
  ret (Response
         (jsonify (PDict [("email", PVal (opt_str email));
                          ("message", PText [Lit "user created"])]))
         200).

(** The inner loops of [create_roadmap].  Modelled from the spec: the
    relationship appends ([topic.objectives.append(objective)],
    [topic.resources.append(resource)], [roadmap.topic.append(topic)],
    [user.roadmaps.append(roadmap)]) link objects in memory; the data
    model has no column for them and [save] writes the object it is
    called on, so they change nothing in the store and the loops below
    leave them out. *)
Fixpoint save_objectives (topic : Topic.t) (texts : list json) : M unit :=
  match texts with
  | [] => ret tt
  | objective_text :: rest =>
      let! objective := new_Objectives objective_text (Topic.id topic) in
      do! storage.save (OObjectives objective) in
      save_objectives topic rest
  end.

Fixpoint save_resources (topic : Topic.t) (links : list json) : M unit :=
  match links with
  | [] => ret tt
  | resource_link :: rest =>
      let! resource := new_Resources resource_link (Topic.id topic) in
      do! storage.save (OResources resource) in
      save_resources topic rest
  end.

(** The loop over [roadmap_response["Topics"]]. *)
Fixpoint save_topics (roadmap : Roadmap.t) (position : Z) (entries : list json)
    : M unit :=
  match entries with
  | [] => ret tt
  | topic_data :: rest =>
      let! name := lift (py_getitem topic_data "TopicName") in
      let! description := lift (py_getitem topic_data "Descriptions") in
      let! milestones := lift (py_getitem topic_data "Milestones") in
      let! topic := new_Topic position (Roadmap.id roadmap) name description
                              milestones in
      let position := position + 1 in
      let! texts := lift (py_items topic_data "LearningObjectives") in
      do! save_objectives topic texts in
      let! links := lift (py_items topic_data "Resources") in
      do! save_resources topic links in
      do! storage.save (OTopic topic) in
      save_topics roadmap position rest
  end.

(** [POST /create_roadmap] *)
Definition create_roadmap (request_json : list (string * json)) : M response :=
  let user_id := dict_get request_json "user_id" in
  do! (if negb (truthy user_id)
       then abort 400 [Lit "Missing User Id"] else ret tt) in
  let roadmap_response := dict_get request_json "Roadmap" in
  do! (if negb (truthy roadmap_response)
       then abort 400 [Lit "Missing Roadmap"] else ret tt) in
  let! user := storage.show_User user_id in
  let! user := match user with
               | None => abort 404 ([Lit "User id: "] ++ py_str user_id
                                    ++ [Lit " Not Found"])
               | Some user => ret user
               end in
  let! title := lift (py_getitem roadmap_response "Title") in
  let! introduction := lift (py_getitem roadmap_response "Introduction") in
  let! additional_info := lift (py_getitem roadmap_response "AdditionalInfo") in
  let! roadmap := new_Roadmap user_id title introduction additional_info
                              true false false in
  do! storage.save (ORoadmap roadmap) in
  let r_id := Roadmap.id roadmap in
  let! entries := lift (py_items roadmap_response "Topics") in
  do! save_topics roadmap 1 entries in
  do! storage.save (OUser user) in
  ret (Response (jsonify (PDict [("roadmap_id", PVal (JStr r_id))])) 201).

(** [DELETE /roadmap/<roadmap_id>] *)
Definition delete_roadmap (roadmap_id : string) : M response :=
  let! roadmap := storage.show_Roadmap roadmap_id in
  let! roadmap := match roadmap with
                  | None => abort 404 [Lit "Roadmap Not Found"]
                  | Some roadmap => ret roadmap
                  end in
  do! storage.delete_Roadmap roadmap in
  ret (Response
         (jsonify (PDict [("message", PText [Lit "Roadmap Deleted Successfully"])]))
         200).

Section dictionaries.

(** [values A d] is the order in which [d.values()] hands out the
    objects of a dictionary the storage facade returned. *)
Context (values : ∀ A, gmap string A → list A).

(** [GET /dashboard] *)
Definition dashboard : M response :=
  let! roadmap := storage.all_Roadmap in
  let data := sorted (values _ roadmap) Roadmap.created_at true in
  let roadmaps := map Roadmap.to_dict data in
  ret (Response (jsonify (PList roadmaps)) 200).

(** The loop of [view_roadmap] over [topics.values()]. *)
Fixpoint collect (topics : list Topic.t)
    (objectives : list Objectives.t) (resources : list Resources.t)
    : M (list Objectives.t * list Resources.t) :=
  match topics with
  | [] => ret (objectives, resources)
  | i :: rest =>
      let! o := storage.fetch_Objectives (Topic.id i) in
      let! r := storage.fetch_Resources (Topic.id i) in
      collect rest (objectives ++ values _ o) (resources ++ values _ r)
  end.

(** [GET /roadmap/<roadmap_id>] *)
Definition view_roadmap (roadmap_id : string) : M response :=
  let! roadmap := storage.show_Roadmap roadmap_id in
  match roadmap with
  | None =>
      ret (Response
             (jsonify (PDict [("error", PText [Lit "Roadmap not found"])])) 404)
  | Some roadmap =>
      let! topics := storage.fetch_Topic (Roadmap.id roadmap) in
      let! found := collect (values _ topics) [] [] in
      let objectives := found.1 in
      let resources := found.2 in
      ret (Response
             (jsonify (PDict [
                ("roadmap", Roadmap.to_dict roadmap);
                ("objectives", PList (map Objectives.to_dict objectives));
                ("topics",
                 PList (map Topic.to_dict
                            (sorted (values _ topics) Topic.position false)));
                ("resources", PList (map Resources.to_dict resources))]))
             200)
  end.

End dictionaries.

(** ** The dispatch layer *)

(** The registered error handlers. *)
Definition bad_request (description : text) : response :=
  Response (jsonify (PDict [("Error", PText description)])) 400.

Definition forbidden (description : text) : response :=
  Response (jsonify (PDict [("Error", PText description)])) 403.

Definition not_found (description : text) : response :=
  Response (jsonify (PDict [("Error", PText description)])) 404.

(** What the framework answers when a view raises: the registered handler
    of an HTTP exception of code 400, 403 or 404, and its own error page
    otherwise (status 500 for an exception that is no HTTP exception). *)
Definition handle_exception (e : exn) : response :=
  match e with
  | HTTPException code description =>
      if decide (code = 400) then bad_request description
      else if decide (code = 403) then forbidden description
      else if decide (code = 404) then not_found description
      else Response ErrorPage code
  | _ => Response ErrorPage 500
  end.

Definition serve (view : M response) (w : World) : response * World :=
  match view w with
  | (inr r, w') => (r, w')
  | (inl e, w') => (handle_exception e, w')
  end.

(** ** The auth service *)

Module AUTH.
(** Modelled from the spec: [register_user] of the auth service (not in
    the sources): fails with a [ValueError] if the email is already
    present; otherwise hashes the password, persists a new user and
    returns it.  [hashpw] is the one-way hash. *)
Definition register_user (hashpw : option string → option string)
    (first_name last_name email password : option string) : M User.t :=
  λ w,
    if existsb (λ u, bool_decide (User.email u = email))
               (map_to_list (users (db w))).*2
    then raise (ValueError [JStr "User already exists"]) w
    else (let! id := new_id in
          let user := User.Build id first_name last_name email
                                 (hashpw password) None None in
          do! storage.save (OUser user) in
          ret user) w.
End AUTH.

(** ** Vocabulary of the properties *)

(** *** Form fields *)

(** What a form supplies for a field: the value of the first pair sent
    under that name, and nothing when no pair has the name. *)
Inductive supplied (form : list (string * string)) (k : string) :
    option string → Prop :=
  | supplied_nothing :
      k ∉ form.*1 → supplied form k None
  | supplied_first before s after :
      form = before ++ (k, s) :: after → k ∉ before.*1 →
      supplied form k (Some s).

(** *** Status flags, stores, failure bodies *)

(** The three status flags of a roadmap. *)
Definition flags (r : Roadmap.t) : bool * bool * bool :=
  (Roadmap.planning r, Roadmap.in_progress r, Roadmap.completed r).

(** The flags a requested status stands for, if it is one of the three. *)
Definition status_flags (new_status : json) : option (bool * bool * bool) :=
  if eq_str new_status "planning" then Some (true, false, false)
  else if eq_str new_status "in_progress" then Some (false, true, false)
  else if eq_str new_status "completed" then Some (false, false, true)
  else None.

Definition exactly_one (f : bool * bool * bool) : Prop :=
  f = (true, false, false) ∨ f = (false, true, false) ∨ f = (false, false, true).

(** Every object is stored under its own id. *)
Definition keyed (t : Tables) : Prop :=
  map_Forall (λ k x, User.id x = k) (users t) ∧
  map_Forall (λ k x, Roadmap.id x = k) (roadmaps t) ∧
  map_Forall (λ k x, Topic.id x = k) (topics t) ∧
  map_Forall (λ k x, Objectives.id x = k) (objectives t) ∧
  map_Forall (λ k x, Resources.id x = k) (resources t).

(** Ids not handed out yet name no stored topic and no parent of one. *)
Definition fresh_ids (w : World) : Prop :=
  ∀ m, (next_id w ≤ m)%nat →
    topics (db w) !! uuid4 m = None ∧
    map_Forall (λ _ x, Topic.roadmap_id x ≠ uuid4 m) (topics (db w)).

(** The failure bodies the error handlers produce. *)
Definition error_shape (c : content) : Prop :=
  ∃ description, c = JSON (PDict [("Error", PText description)]).

(** The member [k] of a JSON object body. *)
Definition response_field (r : response) (k : string) : option pyval :=
  match body r with
  | JSON (PDict members) => assoc k members
  | _ => None
  end.

(** *** Orders *)

(** The order [sorted] puts a list in, and its strict part. *)
Definition ordered {A} (key : A → Z) (reverse : bool) (x y : A) : Prop :=
  precedes reverse (key x) (key y) = true.

Definition strictly_ordered {A} (key : A → Z) (reverse : bool) (x y : A) : Prop :=
  ordered key reverse x y ∧ key x ≠ key y.

(** The objects of a dictionary come out in some order, each once. *)
Definition iteration_order (values : ∀ A, gmap string A → list A) : Prop :=
  ∀ A (d : gmap string A), values A d ≡ₚ (map_to_list d).*2.

(** Two admissible iteration orders: that of [map_to_list], and its
    reverse. *)
Definition listed_values : ∀ A, gmap string A → list A :=
  λ A d, (map_to_list d).*2.

Definition reversed_values : ∀ A, gmap string A → list A :=
  λ A d, reverse (map_to_list d).*2.

(** *** What a run writes *)

(** The journal entries of the saves [os], made in order from the tables
    [t]; the tables after them; the world after the objects [os] were
    saved in order and [k] ids were handed out. *)
Fixpoint stamped (t : Tables) (os : list object) : list (object * Tables) :=
  match os with
  | [] => []
  | o :: os => (o, t) :: stamped (storage.persist o t) os
  end.

Definition persist_all (os : list object) (t : Tables) : Tables :=
  foldl (λ t o, storage.persist o t) t os.

Definition written (os : list object) (k : nat) (w : World) : World :=
  MkWorld (persist_all os (db w)) (next_id w + k)%nat (clock w)
          (journal w ++ stamped (db w) os).

(** The value an expression yields, [d] if it raises; whether it yields
    one. *)
Definition value {A} (d : A) (r : exn + A) : A :=
  match r with
  | inr a => a
  | inl _ => d
  end.

Definition yields {A} (r : exn + A) : bool :=
  match r with
  | inr _ => true
  | inl _ => false
  end.

(** The objects a run of the loops makes, the first with id [uuid4 n]. *)
Fixpoint objectives_of (topic_id : string) (n : nat) (texts : list json)
    : list Objectives.t :=
  match texts with
  | [] => []
  | text :: rest =>
      Objectives.Build (uuid4 n) text topic_id :: objectives_of topic_id (S n) rest
  end.

Fixpoint resources_of (topic_id : string) (n : nat) (links : list json)
    : list Resources.t :=
  match links with
  | [] => []
  | link :: rest =>
      Resources.Build (uuid4 n) link topic_id :: resources_of topic_id (S n) rest
  end.

Definition topic_of (roadmap_id : string) (n : nat) (position : Z)
    (topic_data : json) : Topic.t :=
  Topic.Build (uuid4 n) position roadmap_id
    (value JNull (py_getitem topic_data "TopicName"))
    (value JNull (py_getitem topic_data "Descriptions"))
    (value JNull (py_getitem topic_data "Milestones")).

Definition texts_of (topic_data : json) : list json :=
  value [] (py_items topic_data "LearningObjectives").

Definition links_of (topic_data : json) : list json :=
  value [] (py_items topic_data "Resources").

(** The ids one topic entry takes: the topic's, its objectives', its
    resources'. *)
Definition ids_of (topic_data : json) : nat :=
  S (length (texts_of topic_data) + length (links_of topic_data)).

Fixpoint ids_of_all (entries : list json) : nat :=
  match entries with
  | [] => 0%nat
  | topic_data :: rest => (ids_of topic_data + ids_of_all rest)%nat
  end.

(** The saves of one pass of the loop over the topics, in order, and of
    the whole loop. *)
Definition topic_saves (roadmap_id : string) (n : nat) (position : Z)
    (topic_data : json) : list object :=
  map OObjectives (objectives_of (uuid4 n) (S n) (texts_of topic_data))
  ++ map OResources
       (resources_of (uuid4 n) (S n + length (texts_of topic_data))
                     (links_of topic_data))
  ++ [OTopic (topic_of roadmap_id n position topic_data)].

Fixpoint topics_saves (roadmap_id : string) (n : nat) (position : Z)
    (entries : list json) : list object :=
  match entries with
  | [] => []
  | topic_data :: rest =>
      topic_saves roadmap_id n position topic_data
      ++ topics_saves roadmap_id (n + ids_of topic_data) (position + 1) rest
  end.

(** The topics among them. *)
Fixpoint planned_topics (roadmap_id : string) (n : nat) (position : Z)
    (entries : list json) : list Topic.t :=
  match entries with
  | [] => []
  | topic_data :: rest =>
      topic_of roadmap_id n position topic_data
      :: planned_topics roadmap_id (n + ids_of topic_data) (position + 1) rest
  end.

(** The topic entries of a request, and the roadmap the handler makes
    for it as the [n]-th object at time [now]. *)
Definition entries_of (request_json : list (string * json)) : list json :=
  value [] (py_items (dict_get request_json "Roadmap") "Topics").

Definition roadmap_of (request_json : list (string * json)) (n : nat) (now : Z)
    : Roadmap.t :=
  let roadmap_response := dict_get request_json "Roadmap" in
  Roadmap.Build (uuid4 n) (dict_get request_json "user_id")
    (value JNull (py_getitem roadmap_response "Title"))
    (value JNull (py_getitem roadmap_response "Introduction"))
    (value JNull (py_getitem roadmap_response "AdditionalInfo"))
    true false false now.

(** All the saves of a valid request, in order. *)
Definition create_saves (request_json : list (string * json)) (user : User.t)
    (w : World) : list object :=
  ORoadmap (roadmap_of request_json (next_id w) (clock w))
  :: topics_saves (uuid4 (next_id w)) (S (next_id w)) 1 (entries_of request_json)
  ++ [OUser user].

Definition the_topic (o : object) : option Topic.t :=
  match o with
  | OTopic x => Some x
  | _ => None
  end.

Definition the_roadmap (o : object) : option Roadmap.t :=
  match o with
  | ORoadmap x => Some x
  | _ => None
  end.

(** *** Valid requests *)

(** A topic entry every subscript and loop of the handler accepts. *)
Definition valid_topic (topic_data : json) : bool :=
  yields (py_getitem topic_data "TopicName")
  && yields (py_getitem topic_data "Descriptions")
  && yields (py_getitem topic_data "Milestones")
  && yields (py_items topic_data "LearningObjectives")
  && yields (py_items topic_data "Resources").

(** A [Roadmap] object of a request every subscript and loop of the
    handler accepts. *)
Definition valid_roadmap (roadmap_response : json) : bool :=
  yields (py_getitem roadmap_response "Title")
  && yields (py_getitem roadmap_response "Introduction")
  && yields (py_getitem roadmap_response "AdditionalInfo")
  && match py_items roadmap_response "Topics" with
     | inr entries => forallb valid_topic entries
     | inl _ => false
     end.

(** A request [create_roadmap] carries through: both members truthy, the
    user stored, the [Roadmap] member valid. *)
Definition valid_request (request_json : list (string * json)) (w : World) : bool :=
  truthy (dict_get request_json "user_id")
  && truthy (dict_get request_json "Roadmap")
  && match (storage.show_User (dict_get request_json "user_id") w).1 with
     | inr (Some _) => true
     | _ => false
     end
  && valid_roadmap (dict_get request_json "Roadmap").

(** *** Parents *)

(** The objects the loop over the topics saves: topics of the roadmap,
    objectives and resources. *)
Definition child_of (roadmap_id : string) (o : object) : Prop :=
  match o with
  | OTopic x => Topic.roadmap_id x = roadmap_id
  | OObjectives _ | OResources _ => True
  | _ => False
  end.

(** What [create_roadmap] saves besides the roadmap. *)
Definition beside_roadmap (roadmap_id : string) (o : object) : Prop :=
  child_of roadmap_id o ∨ ∃ u, o = OUser u.


(** In the saves of the loop over the topics, a topic is of the roadmap,
    and an objective or a resource is of one of the topics saved. *)
Definition descends (roadmap_id : string) (saved : list Topic.t) (o : object) : Prop :=
  match o with
  | OTopic x => Topic.roadmap_id x = roadmap_id
  | OObjectives x => Objectives.topic_id x ∈ map Topic.id saved
  | OResources x => Resources.topic_id x ∈ map Topic.id saved
  | _ => False
  end.

(** ** Sample worlds and requests *)

(** A small world: one user, one roadmap in planning. *)
Module Sample.
Definition user : User.t :=
  User.Build "u1" (Some "Ada") (Some "Lovelace") (Some "ada@example.org")
             (Some "$2b$12$hash") None None.
Definition roadmap : Roadmap.t :=
  Roadmap.Build "r1" (JStr "u1") (JStr "Rocq") (JStr "Intro") (JStr "Tips")
                true false false 10.
Definition tables : Tables := MkTables {["u1" := user]} {["r1" := roadmap]} ∅ ∅ ∅.
Definition world : World := MkWorld tables 0 100 [].
End Sample.

(** Three roadmaps created at the times 1, 2 and 3. *)
Module Sample3.
Definition r1 : Roadmap.t :=
  Roadmap.Build "a" (JStr "u1") (JStr "first") JNull JNull true false false 1.
Definition r2 : Roadmap.t :=
  Roadmap.Build "b" (JStr "u1") (JStr "second") JNull JNull false true false 2.
Definition r3 : Roadmap.t :=
  Roadmap.Build "c" (JStr "u1") (JStr "third") JNull JNull true false false 3.
Definition world : World :=
  MkWorld (MkTables {["u1" := Sample.user]}
                    (<["a" := r1]> (<["b" := r2]> {["c" := r3]})) ∅ ∅ ∅)
          0 100 [].
End Sample3.

(** A request with the topics A, B and C. *)
Module SampleABC.
Definition topic (name : string) (objectives resources : list json) : json :=
  JObj [("TopicName", JStr name);
        ("Descriptions", JStr "what it covers");
        ("Milestones", JStr "two weeks");
        ("LearningObjectives", JArr objectives);
        ("Resources", JArr resources)].
Definition request : list (string * json) :=
  [("user_id", JStr "u1");
   ("Roadmap",
    JObj [("Title", JStr "Proofs");
          ("Introduction", JStr "From zero");
          ("AdditionalInfo", JStr "Tips");
          ("Topics",
           JArr [topic "A" [JStr "read"; JStr "write"] [JStr "https://a.example"];
                 topic "B" [] [];
                 topic "C" [JStr "prove"] []])])].
End SampleABC.

(** Requests that lack a member. *)
Module SampleLacking.
(** a [Roadmap] object without the ["Topics"] key *)
Definition no_topics : list (string * json) :=
  [("user_id", JStr "u1");
   ("Roadmap", JObj [("Title", JStr "Proofs");
                     ("Introduction", JStr "From zero");
                     ("AdditionalInfo", JStr "Tips")])].
(** a [Roadmap] object without the ["Title"] key *)
Definition no_title : list (string * json) :=
  [("user_id", JStr "u1");
   ("Roadmap", JObj [("Introduction", JStr "From zero");
                     ("AdditionalInfo", JStr "Tips");
                     ("Topics", JArr [])])].
(** an empty list of topics *)
Definition empty_topics : list (string * json) :=
  [("user_id", JStr "u1");
   ("Roadmap", JObj [("Title", JStr "Proofs");
                     ("Introduction", JStr "From zero");
                     ("AdditionalInfo", JStr "Tips");
                     ("Topics", JArr [])])].
(** no ["Roadmap"] member at all *)
Definition no_roadmap : list (string * json) := [("user_id", JStr "u1")].
End SampleLacking.

(** ** The account and session handlers *)

(** What a view returns besides a plain response: a response that sets a
    cookie, or a redirect. *)
Inductive reply :=
  | Plain (r : response)
  | WithCookie (r : response) (key value : string)
  | Redirect (location : string).

(** [abort(code, keyword=value)]: the exception class of the code takes
    the keyword [description]; its constructor refuses any other keyword
    with a [TypeError]. *)
Definition abort_keyword {A} (code : Z) (keyword : string) (value : text) : M A :=
  if String.eqb keyword "description" then abort code value
  else raise (TypeError ("HTTPException.__init__() got an unexpected keyword argument '"
                         +:+ keyword +:+ "'")).

(** [request.cookies.get(k)] *)
Definition cookies_get (cookies : list (string * string)) (k : string) : option string :=
  assoc k cookies.

(** [POST /sessions]; [AUTH_valid_login] and [AUTH_create_session] are
    [AUTH.valid_login] and [AUTH.create_session] of the auth package (not
    in the sources). *)
Definition login
    (AUTH_valid_login : option string → option string → M bool)
    (AUTH_create_session : option string → M string)
    (form : list (string * string)) : M reply :=
  let email := form_get form "email" in
  let password := form_get form "password" in
  let! valid := AUTH_valid_login email password in
  do! (if negb valid
       then abort_keyword 403 "desciption" [Lit "Invalid Credentials"]
       else ret tt) in
  let! session_id := AUTH_create_session email in
  let response :=
    Response (jsonify (PDict [("email", PVal (opt_str email));
                              ("message", PText [Lit "logged in"])])) 200 in
  ret (WithCookie response "session_id" session_id).

(** [DELETE /sessions] *)
Definition logout
    (AUTH_get_user_from_session_id : option string → M (option User.t))
    (AUTH_destroy_session : string → M unit)
    (cookies : list (string * string)) : M reply :=
  let session_id := cookies_get cookies "session_id" in
  let! user := AUTH_get_user_from_session_id session_id in
  let! user := match user with
               | None => abort 404 [Lit "User not found"]
               | Some user => ret user
               end in
  do! AUTH_destroy_session (User.id user) in
  ret (Redirect "/").

(** [GET /profile] *)
Definition profile
    (AUTH_get_user_from_session_id : option string → M (option User.t))
    (cookies : list (string * string)) : M response :=
  let! user := AUTH_get_user_from_session_id (cookies_get cookies "session_id") in
  let! user := match user with
               | None => abort 404 [Lit "User not found"]
               | Some user => ret user
               end in
  ret (Response
         (jsonify (PDict [("email", PVal (opt_str (User.email user)));
                          ("name",
                           PText (py_str (opt_str (User.first_name user))
                                  ++ [Lit " "]
                                  ++ py_str (opt_str (User.last_name user))))]))
         200).

(** [POST /reset_password] *)
Definition get_reset_password_token
    (AUTH_get_reset_password_token : option string → M string)
    (form : list (string * string)) : M response :=
  let email := form_get form "email" in
  try_except
    (let! token := AUTH_get_reset_password_token email in
     ret (Response
            (jsonify (PDict [("email", PVal (opt_str email));
                             ("reset_token", PVal (JStr token))]))
            200))
    (λ e, match e with
          | ValueError _ => abort_keyword 403 "desciption" [Lit "Invalid Credentials"]
          | _ => raise e
          end).

(** [PUT /reset_password] *)
Definition update_password
    (AUTH_update_password : option string → option string → M unit)
    (form : list (string * string)) : M response :=
  let email := form_get form "email" in
  let reset_token := form_get form "reset_token" in
  let new_password := form_get form "new_password" in
  try_except
    (do! AUTH_update_password reset_token new_password in
     ret (Response
            (jsonify (PDict [("email", PVal (opt_str email));
                             ("message", PText [Lit "Password updated"])]))
            200))
    (λ e, match e with
          | ValueError _ => abort 403 [Lit "Invalid credentials"]
          | _ => raise e
          end).

(** [DELETE /users]; the [except] branch reads [e.args[0]], which raises
    an [IndexError] for a [ValueError] without arguments, and hands it to
    [abort] as the description, of which the 403 handler takes [str]. *)
Definition delete_user
    (AUTH_delete_user : option string → option string → M unit)
    (form : list (string * string)) : M response :=
  let email := form_get form "email" in
  do! (if negb (truthy (opt_str email))
       then abort 400 [Lit "Missing Email"] else ret tt) in
  let password := form_get form "password" in
  do! (if negb (truthy (opt_str password))
       then abort 400 [Lit "Missing password"] else ret tt) in
  try_except
    (do! AUTH_delete_user email password in
     ret (Response
            (jsonify (PDict [("email", PVal (opt_str email));
                             ("message", PText [Lit "User deleted"])]))
            200))
    (λ e, match e with
          | ValueError args =>
              let! description := lift (first_arg args) in
              abort 403 (py_str description)
          | _ => raise e
          end).

(** [GET /] *)
Definition hello : M response :=
  ret (Response (jsonify (PDict [("message", PText [Lit "Hello, this is working"])]))
                200).

(** The dispatch of a view that may set a cookie or redirect. *)
Definition serve_reply (view : M reply) (w : World) : reply * World :=
  match view w with
  | (inr r, w') => (r, w')
  | (inl e, w') => (Plain (handle_exception e), w')
  end.

(** A stand-in for the auth service, for one user with the password
    ["pw"], the session ["session-1"] and the reset token ["token-1"]. *)
Module SampleAuth.
Definition valid_login (email password : option string) : M bool :=
  ret (bool_decide (email = Some "ada@example.org" ∧ password = Some "pw")).
Definition create_session (email : option string) : M string :=
  ret "session-1".
Definition get_user_from_session_id (session_id : option string) : M (option User.t) :=
  ret (if bool_decide (session_id = Some "session-1") then Some Sample.user else None).
Definition destroy_session (user_id : string) : M unit :=
  storage.save (OUser Sample.user).
Definition get_reset_password_token (email : option string) : M string :=
  if bool_decide (email = Some "ada@example.org") then ret "token-1"
  else raise (ValueError [JStr "User not found"]).
Definition update_password (reset_token new_password : option string) : M unit :=
  if bool_decide (reset_token = Some "token-1") then ret tt
  else raise (ValueError [JStr "Invalid reset token"]).
Definition delete_user (email password : option string) : M unit :=
  if bool_decide (email = Some "ada@example.org" ∧ password = Some "pw") then ret tt
  else raise (ValueError [JStr "Invalid credentials"]).
End SampleAuth.

(** ** Further vocabulary *)

(** A roadmap with its three flags replaced. *)
Definition with_flags (f : bool * bool * bool) (r : Roadmap.t) : Roadmap.t :=
  Roadmap.Build (Roadmap.id r) (Roadmap.user_id r) (Roadmap.title r)
                (Roadmap.introduction r) (Roadmap.AdditionalInfo r)
                f.1.1 f.1.2 f.2 (Roadmap.created_at r).

Definition object_id (o : object) : string :=
  match o with
  | OUser x => User.id x
  | ORoadmap x => Roadmap.id x
  | OTopic x => Topic.id x
  | OObjectives x => Objectives.id x
  | OResources x => Resources.id x
  end.

Definition the_objective (o : object) : option Objectives.t :=
  match o with
  | OObjectives x => Some x
  | _ => None
  end.

Definition the_resource (o : object) : option Resources.t :=
  match o with
  | OResources x => Some x
  | _ => None
  end.

(** An id handed out from the [n]-th on. *)
Definition handed_from (n : nat) (id : string) : Prop :=
  ∃ m, (n ≤ m)%nat ∧ id = uuid4 m.

(** An object made in a run that started with [n] ids handed out: its id
    is new, a topic is of the run's roadmap, and an objective or a
    resource is of a topic with a new id. *)
Definition made_in_run (roadmap_id : string) (n : nat) (o : object) : Prop :=
  handed_from n (object_id o) ∧
  match o with
  | OTopic x => Topic.roadmap_id x = roadmap_id
  | OObjectives x => handed_from n (Objectives.topic_id x)
  | OResources x => handed_from n (Resources.topic_id x)
  | _ => False
  end.



(** Ids not handed out yet are the id of no stored roadmap, topic,
    objective or resource, and no stored object names one as its
    parent. *)
Definition unused_ids (w : World) : Prop :=
  ∀ id, handed_from (next_id w) id →
    roadmaps (db w) !! id = None ∧
    topics (db w) !! id = None ∧
    objectives (db w) !! id = None ∧
    resources (db w) !! id = None ∧
    map_Forall (λ _ x, Topic.roadmap_id x ≠ id) (topics (db w)) ∧
    map_Forall (λ _ x, Objectives.topic_id x ≠ id) (objectives (db w)) ∧
    map_Forall (λ _ x, Resources.topic_id x ≠ id) (resources (db w)).

(** A world in which one roadmap with one topic, one objective and one
    resource was created: four ids are handed out. *)
Module SampleStored.
Definition roadmap : Roadmap.t :=
  Roadmap.Build (uuid4 0) (JStr "u1") (JStr "Rocq") (JStr "Intro") (JStr "Tips")
                true false false 10.
Definition topic : Topic.t :=
  Topic.Build (uuid4 1) 1 (uuid4 0) (JStr "Basics") (JStr "terms") (JStr "a week").
Definition objective : Objectives.t :=
  Objectives.Build (uuid4 2) (JStr "read") (uuid4 1).
Definition resource : Resources.t :=
  Resources.Build (uuid4 3) (JStr "https://rocq-prover.org") (uuid4 1).
Definition tables : Tables :=
  MkTables {["u1" := Sample.user]} {[uuid4 0 := roadmap]} {[uuid4 1 := topic]}
           {[uuid4 2 := objective]} {[uuid4 3 := resource]}.
Definition world : World := MkWorld tables 4 100 [].
End SampleStored.

(** The objectives and the resources among the saves of the loop over the
    topics. *)
Fixpoint planned_objectives (n : nat) (entries : list json) : list Objectives.t :=
  match entries with
  | [] => []
  | topic_data :: rest =>
      objectives_of (uuid4 n) (S n) (texts_of topic_data)
      ++ planned_objectives (n + ids_of topic_data) rest
  end.

Fixpoint planned_resources (n : nat) (entries : list json) : list Resources.t :=
  match entries with
  | [] => []
  | topic_data :: rest =>
      resources_of (uuid4 n) (S n + length (texts_of topic_data)) (links_of topic_data)
      ++ planned_resources (n + ids_of topic_data) rest
  end.

(** ** Generic facts *)

Ltac unfold_monad :=
  unfold try_except, bind, ret, abort, raise, lift,
    storage.show_Roadmap, storage.show_User, storage.save in *.

Lemma persist_keyed o t : keyed t → keyed (storage.persist o t).
Proof.
  intros (Hu & Hr & Ht & Ho & Hs).
  destruct o; simpl; repeat split; simpl; try assumption;
    apply map_Forall_insert_2; auto.
Qed.

Ltac solve_keyed :=
  repeat split; simpl;
  repeat first [ apply map_Forall_empty
               | apply map_Forall_singleton; reflexivity
               | apply map_Forall_insert_2; [reflexivity|] ].

(** ** Status updates *)

(** The run of [update_roadmap_status] for an id that is not stored: the
    [abort(404)] is caught by the handler's own [except Exception]. *)
Lemma update_roadmap_status_absent roadmap_id request_json w :
  roadmaps (db w) !! roadmap_id = None →
  update_roadmap_status roadmap_id request_json w =
    (inr (Response
            (JSON (PDict [("error",
               PText [Lit "An error occurred: "; Lit "404"; Lit " ";
                      Lit "Not Found"; Lit ": "; Lit "Roadmap Not Found"])]))
            500), w).
Proof.
  intros Hnone. unfold update_roadmap_status. unfold_monad.
  rewrite Hnone. reflexivity.
Qed.

(** C1.  Updating the status of a roadmap that is not stored changes no
    stored state, but the [abort(404)] is caught by the handler's own
    [except Exception]: the answer is status 500 with an ["error"] body,
    not the 404 of the error handler. *)
Theorem update_status_missing_roadmap roadmap_id request_json w :
  roadmaps (db w) !! roadmap_id = None →
  serve (update_roadmap_status roadmap_id request_json) w =
    (Response
       (JSON (PDict [("error",
          PText [Lit "An error occurred: "; Lit "404"; Lit " ";
                 Lit "Not Found"; Lit ": "; Lit "Roadmap Not Found"])]))
       500, w).
Proof.
  intros Hnone. unfold serve.
  rewrite (update_roadmap_status_absent _ _ _ Hnone). reflexivity.
Qed.

Lemma update_status_missing_roadmap_witness :
  serve (update_roadmap_status "r2" [("new_status", JStr "planning")]) Sample.world =
    (Response
       (JSON (PDict [("error",
          PText [Lit "An error occurred: "; Lit "404"; Lit " ";
                 Lit "Not Found"; Lit ": "; Lit "Roadmap Not Found"])]))
       500, Sample.world).
Proof. apply update_status_missing_roadmap. reflexivity. Defined.

(** C2.  A [new_status] that is none of the three names is never answered
    with 403.  A truthy one (any other non-empty string, for one) falls
    through the [if]/[elif] chain: the roadmap is saved as it was and the
    answer is 200 with the success message.  A falsy one reaches
    [abort(403)], which the handler's own [except Exception] turns into
    a 500; nothing is saved then. *)
Theorem update_status_unknown_status roadmap_id request_json w roadmap :
  roadmaps (db w) !! roadmap_id = Some roadmap →
  status_flags (dict_get request_json "new_status") = None →
  let new_status := dict_get request_json "new_status" in
  (truthy new_status = true →
   serve (update_roadmap_status roadmap_id request_json) w =
     (Response
        (JSON (PDict [("message",
           PText ([Lit "Roadmap status ("] ++ py_str new_status
                  ++ [Lit ") updated successfully"]))]))
        200,
      MkWorld (storage.persist (ORoadmap roadmap) (db w)) (next_id w) (clock w)
              (journal w ++ [(ORoadmap roadmap, db w)]))) ∧
  (truthy new_status = false →
   serve (update_roadmap_status roadmap_id request_json) w =
     (Response
        (JSON (PDict [("error",
           PText [Lit "An error occurred: "; Lit "403"; Lit " ";
                  Lit "Forbidden"; Lit ": "; Lit "Invalid Request body"])]))
        500, w)).
Proof.
  intros Hsome Hflags new_status. unfold status_flags in Hflags.
  fold new_status in Hflags.
  destruct (eq_str new_status "planning") eqn:E1; [discriminate|].
  destruct (eq_str new_status "in_progress") eqn:E2; [discriminate|].
  destruct (eq_str new_status "completed") eqn:E3; [discriminate|].
  split; intros Htruthy;
    unfold serve, update_roadmap_status; unfold_monad;
    rewrite Hsome; fold new_status; rewrite Htruthy; simpl.
  - rewrite E1, E2, E3. reflexivity.
  - reflexivity.
Qed.

Lemma update_status_unknown_status_witness :
  serve (update_roadmap_status "r1" [("new_status", JStr "foo")]) Sample.world =
    (Response
       (JSON (PDict [("message",
          PText [Lit "Roadmap status ("; Lit "foo";
                 Lit ") updated successfully"])]))
       200,
     MkWorld (storage.persist (ORoadmap Sample.roadmap) Sample.tables) 0 100
             [(ORoadmap Sample.roadmap, Sample.tables)]).
Proof.
  apply (update_status_unknown_status "r1" [("new_status", JStr "foo")]
           Sample.world Sample.roadmap); reflexivity.
Defined.

(** C3.  After every call of [update_roadmap_status] on a stored
    roadmap, whatever the request and whatever the answer, the roadmap
    is stored with exactly one of its three flags set, provided it had
    exactly one set before, as every created roadmap has.  A call that
    requests [planning], [in_progress] or [completed] is answered with
    200 and leaves exactly one flag set whatever the flags were, the one
    of the requested status; every other call leaves the three flags as
    they were. *)
Theorem update_status_keeps_one_flag roadmap_id request_json w roadmap :
  keyed (db w) →
  roadmaps (db w) !! roadmap_id = Some roadmap →
  let new_status := dict_get request_json "new_status" in
  let after := serve (update_roadmap_status roadmap_id request_json) w in
  ∃ r, roadmaps (db after.2) !! roadmap_id = Some r ∧
       (exactly_one (flags roadmap) → exactly_one (flags r)) ∧
       (new_status = JStr "planning" →
        status after.1 = 200 ∧ flags r = (true, false, false)) ∧
       (new_status = JStr "in_progress" →
        status after.1 = 200 ∧ flags r = (false, true, false)) ∧
       (new_status = JStr "completed" →
        status after.1 = 200 ∧ flags r = (false, false, true)) ∧
       (∀ f, status_flags new_status = Some f → flags r = f ∧ exactly_one f) ∧
       (status_flags new_status = None → flags r = flags roadmap).
Proof.
  intros (_ & Hkeyed & _) Hsome.
  assert (Hid : Roadmap.id roadmap = roadmap_id) by exact (Hkeyed _ _ Hsome).
  cbv zeta. unfold status_flags, serve, update_roadmap_status. unfold_monad.
  rewrite Hsome.
  destruct (truthy (dict_get request_json "new_status")) eqn:Htruthy; simpl.
  - destruct (eq_str (dict_get request_json "new_status") "planning") eqn:E1;
      [|destruct (eq_str (dict_get request_json "new_status") "in_progress") eqn:E2;
        [|destruct (eq_str (dict_get request_json "new_status") "completed") eqn:E3]];
      simpl; rewrite Hid, lookup_insert_eq; eexists; (split; [reflexivity|]);
      unfold flags, exactly_one; simpl;
      repeat split; intros;
      try match goal with
          | H : dict_get _ _ = JStr _ |- _ =>
              rewrite H in E1; try rewrite H in E2; try rewrite H in E3
          end;
      try match goal with
          | H : Some _ = Some _ |- _ => injection H as <-
          end;
      try discriminate; try reflexivity; auto.
  - exists roadmap. split; [exact Hsome|].
    repeat split; intros;
      try match goal with
          | H : dict_get _ _ = JStr _ |- _ =>
              rewrite H in Htruthy; discriminate Htruthy
          end;
      auto;
      destruct (dict_get request_json "new_status") as [| | |s| |];
      try discriminate;
      destruct s; discriminate.
Qed.

Lemma update_status_keeps_one_flag_witness :
  (∃ r, roadmaps (db (serve (update_roadmap_status
                               "r1" [("new_status", JStr "completed")])
                            Sample.world).2) !! "r1" = Some r ∧
        status (serve (update_roadmap_status
                         "r1" [("new_status", JStr "completed")])
                      Sample.world).1 = 200 ∧
        flags r = (false, false, true) ∧ exactly_one (flags r)) ∧
  (∃ r, roadmaps (db (serve (update_roadmap_status
                               "r1" [("new_status", JStr "foo")])
                            Sample.world).2) !! "r1" = Some r ∧
        flags r = (true, false, false) ∧ exactly_one (flags r)).
Proof.
  split.
  - destruct (update_status_keeps_one_flag "r1" [("new_status", JStr "completed")]
                Sample.world Sample.roadmap)
      as (r & Hstored & Hone & _ & _ & Hcompleted & _).
    + solve_keyed.
    + reflexivity.
    + exists r. destruct (Hcompleted eq_refl) as [Hstatus Hflags].
      split; [exact Hstored|]. split; [exact Hstatus|]. split; [exact Hflags|].
      apply Hone. left. reflexivity.
  - destruct (update_status_keeps_one_flag "r1" [("new_status", JStr "foo")]
                Sample.world Sample.roadmap)
      as (r & Hstored & Hone & _ & _ & _ & _ & Hother).
    + solve_keyed.
    + reflexivity.
    + exists r. split; [exact Hstored|]. split.
      * rewrite (Hother eq_refl). reflexivity.
      * apply Hone. left. reflexivity.
Defined.

(** ** Sorting *)

Section sorting.
Context {A : Type} (key : A → Z) (reverse : bool).

Local Abbreviation ordered := (ordered key reverse).
Local Abbreviation strictly_ordered := (strictly_ordered key reverse).

Lemma ordered_total x y : ordered x y ∨ ordered y x.
Proof. unfold ordered, precedes. destruct reverse; lia. Qed.

Global Instance ordered_trans : Transitive ordered.
Proof. intros x y z. unfold ordered, precedes. destruct reverse; lia. Qed.

Lemma insert_by_perm x l : insert_by key reverse x l ≡ₚ x :: l.
Proof.
  induction l as [|y l IH]; simpl; [reflexivity|].
  destruct (precedes _ _ _); [reflexivity|].
  rewrite IH. apply Permutation_swap.
Qed.

Lemma sorted_perm l : sorted l key reverse ≡ₚ l.
Proof.
  induction l as [|x l IH]; simpl; [reflexivity|].
  fold (sorted l key reverse). rewrite insert_by_perm, IH. reflexivity.
Qed.

Lemma insert_by_sorted x l :
  StronglySorted ordered l → StronglySorted ordered (insert_by key reverse x l).
Proof.
  induction 1 as [|y l Hl IH Hy]; simpl.
  - repeat constructor.
  - destruct (precedes reverse (key x) (key y)) eqn:E.
    + constructor; [constructor; assumption|].
      constructor; [exact E|].
      eapply Forall_impl; [exact Hy|]. intros z Hz. etransitivity; eauto.
    + constructor; [exact IH|].
      rewrite insert_by_perm. constructor; [|exact Hy].
      destruct (ordered_total x y) as [H|H]; [|exact H].
      unfold ordered in H. congruence.
Qed.

Lemma sorted_sorted l : StronglySorted ordered (sorted l key reverse).
Proof.
  induction l as [|x l IH]; simpl; [constructor|].
  apply insert_by_sorted, IH.
Qed.

Lemma strictly_ordered_weaken l :
  StronglySorted strictly_ordered l → StronglySorted ordered l.
Proof.
  induction 1 as [|x l Hl IH Hx]; constructor; [exact IH|].
  eapply Forall_impl; [exact Hx|]. intros y [H _]. exact H.
Qed.

Lemma strictly_ordered_key_inj l x y :
  StronglySorted strictly_ordered l → x ∈ l → y ∈ l → key x = key y → x = y.
Proof.
  induction 1 as [|z l Hl IH Hz]; intros Hx Hy Hk.
  - inversion Hx.
  - rewrite Forall_forall in Hz.
    apply elem_of_cons in Hx as [->|Hx]; apply elem_of_cons in Hy as [->|Hy].
    + reflexivity.
    + destruct (Hz y Hy) as [_ Hne]. contradiction.
    + destruct (Hz x Hx) as [_ Hne]. symmetry in Hk. contradiction.
    + apply IH; assumption.
Qed.

(** A list already in strict order is what sorting any rearrangement
    of it gives. *)
Lemma sorted_unique l l' :
  StronglySorted strictly_ordered l → l' ≡ₚ l → sorted l' key reverse = l.
Proof.
  intros Hl Hperm.
  apply (StronglySorted_unique_strong ordered).
  - intros x y Hx Hy Hxy Hyx.
    rewrite sorted_perm, Hperm in Hx.
    apply (strictly_ordered_key_inj l); [assumption..|].
    unfold ordered, precedes in *. destruct reverse; lia.
  - apply sorted_sorted.
  - apply strictly_ordered_weaken, Hl.
  - rewrite sorted_perm. exact Hperm.
Qed.

End sorting.

Lemma StronglySorted_mono {A} (R R' : A → A → Prop) l :
  (∀ x y, R x y → R' x y) → StronglySorted R l → StronglySorted R' l.
Proof.
  intros HR. induction 1 as [|x l Hl IH Hx]; constructor; [exact IH|].
  eapply Forall_impl; [exact Hx|]. auto.
Qed.

(** ** The dashboard *)

(** C6.  The dashboard answers 200 with every stored roadmap, ordered by
    [created_at] descending, whatever order the storage hands them out
    in; three roadmaps created at t1 < t2 < t3 come out as t3, t2, t1. *)
Theorem dashboard_newest_first values w :
  iteration_order values →
  ∃ data,
    serve (dashboard values) w =
      (Response (JSON (PList (map Roadmap.to_dict data))) 200, w) ∧
    data ≡ₚ (map_to_list (roadmaps (db w))).*2 ∧
    StronglySorted (λ a b, Roadmap.created_at b ≤ Roadmap.created_at a) data ∧
    ∀ r1 r2 r3,
      (map_to_list (roadmaps (db w))).*2 ≡ₚ [r1; r2; r3] →
      Roadmap.created_at r1 < Roadmap.created_at r2 < Roadmap.created_at r3 →
      data = [r3; r2; r1].
Proof.
  intros Hvalues.
  exists (sorted (values _ (roadmaps (db w))) Roadmap.created_at true).
  split; [reflexivity|]. split; [|split].
  - rewrite sorted_perm. apply Hvalues.
  - eapply StronglySorted_mono; [|apply sorted_sorted].
    intros x y. unfold ordered, precedes. lia.
  - intros r1 r2 r3 Hstored Hlt. apply sorted_unique.
    + unfold strictly_ordered, ordered, precedes.
      repeat constructor; lia.
    + etransitivity; [apply Hvalues|]. rewrite Hstored.
      apply (Permutation_rev [r1; r2; r3]).
Qed.

Lemma dashboard_newest_first_witness :
  ∃ data,
    serve (dashboard listed_values) Sample3.world =
      (Response (JSON (PList (map Roadmap.to_dict data))) 200, Sample3.world) ∧
    data = [Sample3.r3; Sample3.r2; Sample3.r1].
Proof.
  destruct (dashboard_newest_first listed_values Sample3.world)
    as (data & Hserve & _ & _ & Hthree).
  - intros A d. reflexivity.
  - exists data. split; [exact Hserve|].
    apply Hthree.
    + simpl. rewrite !map_to_list_insert by reflexivity.
      rewrite map_to_list_singleton. reflexivity.
    + simpl. lia.
Defined.

(** ** Failure bodies *)

(** C8.  For a roadmap id that is not stored, [view_roadmap] answers 404
    and [update_roadmap_status] answers 500, both with a body under the
    key ["error"], which is not the [{"Error": description}] of the
    error handlers; [delete_roadmap], which aborts, does get that body. *)
Theorem failure_bodies_differ values roadmap_id request_json w :
  roadmaps (db w) !! roadmap_id = None →
  serve (view_roadmap values roadmap_id) w =
    (Response (JSON (PDict [("error", PText [Lit "Roadmap not found"])])) 404, w) ∧
  ¬ error_shape (body (serve (view_roadmap values roadmap_id) w).1) ∧
  status (serve (update_roadmap_status roadmap_id request_json) w).1 = 500 ∧
  ¬ error_shape (body (serve (update_roadmap_status roadmap_id request_json) w).1) ∧
  serve (delete_roadmap roadmap_id) w =
    (Response (JSON (PDict [("Error", PText [Lit "Roadmap Not Found"])])) 404, w) ∧
  error_shape (body (serve (delete_roadmap roadmap_id) w).1).
Proof.
  intros Hnone. unfold serve at 3 4.
  rewrite (update_roadmap_status_absent _ request_json _ Hnone).
  assert (Hview : serve (view_roadmap values roadmap_id) w =
    (Response (JSON (PDict [("error", PText [Lit "Roadmap not found"])])) 404, w)).
  { unfold serve, view_roadmap. unfold_monad. rewrite Hnone. reflexivity. }
  assert (Hdelete : serve (delete_roadmap roadmap_id) w =
    (Response (JSON (PDict [("Error", PText [Lit "Roadmap Not Found"])])) 404, w)).
  { unfold serve, delete_roadmap. unfold_monad. rewrite Hnone. reflexivity. }
  rewrite Hview, Hdelete. simpl.
  repeat split; try (intros [d Hd]; discriminate Hd).
  eexists. reflexivity.
Qed.

Lemma failure_bodies_differ_witness :
  serve (view_roadmap listed_values "r2") Sample.world =
    (Response (JSON (PDict [("error", PText [Lit "Roadmap not found"])])) 404,
     Sample.world) ∧
  ¬ error_shape (body (serve (view_roadmap listed_values "r2") Sample.world).1).
Proof.
  destruct (failure_bodies_differ listed_values "r2" [] Sample.world)
    as (H1 & H2 & _); [reflexivity|].
  split; assumption.
Defined.

(** ** Registration *)

Ltac solve_absent :=
  simpl; intros Hin;
  repeat (apply elem_of_cons in Hin as [Hin|Hin]; [discriminate Hin|]);
  inversion Hin.

(** A form field that was not sent reads as [None]. *)
Lemma form_get_absent form k :
  k ∉ form.*1 → form_get form k = None.
Proof.
  unfold form_get. induction form as [|[k' v] form IH]; simpl; [reflexivity|].
  intros Hnotin. apply not_elem_of_cons in Hnotin as [Hne Hnotin].
  destruct (String.eqb_spec k' k); [congruence|]. auto.
Qed.

(** [form.get] reads what the form supplies. *)
Lemma form_get_supplied form k v :
  supplied form k v → form_get form k = v.
Proof.
  intros [Habsent|before s after -> Hbefore].
  - apply form_get_absent, Habsent.
  - unfold form_get. induction before as [|[k' v'] before IH]; simpl.
    + rewrite String.eqb_refl. reflexivity.
    + simpl in Hbefore. apply not_elem_of_cons in Hbefore as [Hne Hbefore].
      destruct (String.eqb_spec k' k); [congruence|]. apply IH, Hbefore.
Qed.

(** Every form supplies a value or nothing for every field. *)
Lemma supplied_total form k : ∃ v, supplied form k v.
Proof.
  induction form as [|[k' v'] form [v IH]].
  - exists None. constructor. simpl. apply not_elem_of_nil.
  - destruct (decide (k' = k)) as [->|Hne].
    + exists (Some v'). apply (supplied_first _ _ [] v' form); [reflexivity|].
      simpl. apply not_elem_of_nil.
    + destruct IH as [Habsent|before s after -> Hbefore].
      * exists None. constructor. simpl. apply not_elem_of_cons.
        split; [congruence|assumption].
      * exists (Some s).
        apply (supplied_first _ _ ((k', v') :: before) s after); [reflexivity|].
        simpl. apply not_elem_of_cons. split; [congruence|assumption].
Qed.

(** C10.  [register_user] checks the presence of no form field: whatever
    the form supplies for [first_name], [last_name], [email] and
    [password], a value or nothing, [AUTH.register_user] is called with
    exactly that, [None] standing for a field that was not sent; and
    when that call returns, the answer is 200 and echoes the email
    supplied, [null] if there was none, in the world the call left. *)
Theorem register_user_no_presence_check
    AUTH_register_user form first_name last_name email password w user w' :
  supplied form "first_name" first_name →
  supplied form "last_name" last_name →
  supplied form "email" email →
  supplied form "password" password →
  AUTH_register_user first_name last_name email password w = (inr user, w') →
  serve (register_user AUTH_register_user form) w =
    (Response
       (JSON (PDict [("email", PVal (match email with
                                     | Some address => JStr address
                                     | None => JNull
                                     end));
                     ("message", PText [Lit "user created"])]))
       200, w').
Proof.
  intros Hfirst Hlast Hemail Hpassword Hcall.
  unfold serve, register_user. unfold_monad.
  rewrite (form_get_supplied _ _ _ Hfirst), (form_get_supplied _ _ _ Hlast),
    (form_get_supplied _ _ _ Hemail), (form_get_supplied _ _ _ Hpassword), Hcall.
  destruct email; reflexivity.
Qed.

(** The duplicate-email failure of the same call is the only one the
    handler maps: it is answered by the 400 handler. *)
Lemma register_user_duplicate AUTH_register_user form msg w w' :
  AUTH_register_user (form_get form "first_name") (form_get form "last_name")
    (form_get form "email") (form_get form "password") w
  = (inl (ValueError msg), w') →
  serve (register_user AUTH_register_user form) w =
    (Response (JSON (PDict [("Error", PText [Lit "Email already registered"])])) 400,
     w').
Proof.
  intros Hcall.
  unfold serve, register_user. unfold_monad. rewrite Hcall. reflexivity.
Qed.

Lemma register_user_no_presence_check_witness :
  serve (register_user (AUTH.register_user (λ _, Some "$2b$12$hash"))
                       [("email", "grace@example.org"); ("first_name", "Grace")])
        Sample.world =
    (Response
       (JSON (PDict [("email", PVal (JStr "grace@example.org"));
                     ("message", PText [Lit "user created"])]))
       200,
     MkWorld
       (MkTables
          (<["0" := User.Build "0" (Some "Grace") None (Some "grace@example.org")
                               (Some "$2b$12$hash") None None]>
             (users Sample.tables))
          (roadmaps Sample.tables) ∅ ∅ ∅)
       1 100
       [(OUser (User.Build "0" (Some "Grace") None (Some "grace@example.org")
                           (Some "$2b$12$hash") None None), Sample.tables)]) ∧
  serve (register_user (AUTH.register_user (λ _, Some "$2b$12$hash")) [])
        Sample.world =
    (Response
       (JSON (PDict [("email", PVal JNull);
                     ("message", PText [Lit "user created"])]))
       200,
     (AUTH.register_user (λ _, Some "$2b$12$hash") None None None None
                         Sample.world).2).
Proof.
  split.
  - apply (register_user_no_presence_check
             (AUTH.register_user (λ _, Some "$2b$12$hash"))
             [("email", "grace@example.org"); ("first_name", "Grace")]
             (Some "Grace") None (Some "grace@example.org") None Sample.world
             (User.Build "0" (Some "Grace") None (Some "grace@example.org")
                         (Some "$2b$12$hash") None None)).
    + apply (supplied_first _ _ [("email", "grace@example.org")] "Grace" []);
        [reflexivity|solve_absent].
    + apply supplied_nothing. solve_absent.
    + apply (supplied_first _ _ [] "grace@example.org" [("first_name", "Grace")]);
        [reflexivity|solve_absent].
    + apply supplied_nothing. solve_absent.
    + vm_compute. reflexivity.
  - apply (register_user_no_presence_check
             (AUTH.register_user (λ _, Some "$2b$12$hash")) []
             None None None None Sample.world
             (User.Build "0" None None None (Some "$2b$12$hash") None None));
      first [apply supplied_nothing; solve_absent | reflexivity].
Defined.

(** ** Creating a roadmap: what a run writes *)

Lemma stamped_app t os1 os2 :
  stamped t (os1 ++ os2) = stamped t os1 ++ stamped (persist_all os1 t) os2.
Proof.
  revert t. induction os1 as [|o os1 IH]; intros t; simpl; [reflexivity|].
  rewrite IH. reflexivity.
Qed.

Lemma written_written os1 k1 os2 k2 w :
  written os2 k2 (written os1 k1 w) = written (os1 ++ os2) (k1 + k2) w.
Proof.
  unfold written, persist_all. simpl. f_equal.
  - rewrite foldl_app. reflexivity.
  - lia.
  - rewrite stamped_app, <- app_assoc. reflexivity.
Qed.

Lemma written_nil w : written [] 0 w = w.
Proof.
  destruct w as [t n c j]. unfold written. simpl.
  rewrite Nat.add_0_r, app_nil_r. reflexivity.
Qed.

Lemma new_id_written w : new_id w = (inr (uuid4 (next_id w)), written [] 1 w).
Proof.
  unfold new_id, written. simpl. rewrite app_nil_r, Nat.add_1_r. reflexivity.
Qed.

Lemma save_written o w : storage.save o w = (inr tt, written [o] 0 w).
Proof.
  unfold storage.save, written. simpl. rewrite Nat.add_0_r. reflexivity.
Qed.

Lemma yields_value {A} (d : A) r : yields r = true → r = inr (value d r).
Proof. destruct r; [discriminate | reflexivity]. Qed.

Lemma save_objectives_written topic texts w :
  save_objectives topic texts w =
    (inr tt, written (map OObjectives (objectives_of (Topic.id topic) (next_id w) texts))
                     (length texts) w).
Proof.
  revert w. induction texts as [|text rest IH]; intros w; simpl.
  - rewrite written_nil. reflexivity.
  - unfold bind, new_Objectives at 1. unfold bind, ret.
    rewrite new_id_written, save_written, IH, !written_written. simpl.
    rewrite Nat.add_1_r. reflexivity.
Qed.

Lemma save_resources_written topic links w :
  save_resources topic links w =
    (inr tt, written (map OResources (resources_of (Topic.id topic) (next_id w) links))
                     (length links) w).
Proof.
  revert w. induction links as [|link rest IH]; intros w; simpl.
  - rewrite written_nil. reflexivity.
  - unfold bind, new_Resources at 1. unfold bind, ret.
    rewrite new_id_written, save_written, IH, !written_written. simpl.
    rewrite Nat.add_1_r. reflexivity.
Qed.

Lemma save_topics_written roadmap position entries w :
  forallb valid_topic entries = true →
  save_topics roadmap position entries w =
    (inr tt,
     written (topics_saves (Roadmap.id roadmap) (next_id w) position entries)
             (ids_of_all entries) w).
Proof.
  revert position w. induction entries as [|topic_data rest IH];
    intros position w Hvalid; simpl.
  - rewrite written_nil. reflexivity.
  - simpl in Hvalid. apply andb_prop in Hvalid as [Hhere Hrest].
    unfold valid_topic in Hhere.
    repeat (apply andb_prop in Hhere as [Hhere ?]).
    unfold bind, lift, new_Topic. unfold bind, ret.
    rewrite (yields_value JNull (py_getitem topic_data "TopicName")) by assumption.
    rewrite (yields_value JNull (py_getitem topic_data "Descriptions")) by assumption.
    rewrite (yields_value JNull (py_getitem topic_data "Milestones")) by assumption.
    rewrite (yields_value [] (py_items topic_data "LearningObjectives")) by assumption.
    rewrite (yields_value [] (py_items topic_data "Resources")) by assumption.
    rewrite new_id_written, save_objectives_written, save_resources_written.
    rewrite save_written, IH by assumption.
    rewrite !written_written. simpl.
    unfold topic_saves, topic_of, texts_of, links_of, ids_of. simpl.
    rewrite !Nat.add_1_r, <- !app_assoc. simpl.
    rewrite !Nat.add_succ_r, !Nat.add_0_r, !Nat.add_assoc. reflexivity.
Qed.

Lemma create_roadmap_written request_json w :
  valid_request request_json w = true →
  ∃ user,
    (storage.show_User (dict_get request_json "user_id") w).1 = inr (Some user) ∧
    create_roadmap request_json w =
      (inr (Response
              (JSON (PDict [("roadmap_id", PVal (JStr (uuid4 (next_id w))))])) 201),
       written (create_saves request_json user w)
               (S (ids_of_all (entries_of request_json))) w).
Proof.
  unfold valid_request, valid_roadmap. intros Hvalid.
  apply andb_prop in Hvalid as [Hvalid Hroadmap].
  apply andb_prop in Hvalid as [Hvalid Hstored].
  apply andb_prop in Hvalid as [Huser_id Htruthy].
  apply andb_prop in Hroadmap as [Hroadmap Htopics].
  apply andb_prop in Hroadmap as [Hroadmap Hadditional].
  apply andb_prop in Hroadmap as [Htitle Hintroduction].
  destruct (storage.show_User _ w).1 as [|[user|]] eqn:Huser;
    [discriminate Hstored| |discriminate Hstored].
  destruct (py_items (dict_get request_json "Roadmap") "Topics")
    as [|entries] eqn:Hentries; [discriminate Htopics|].
  exists user. split; [reflexivity|].
  unfold storage.show_User in Huser. simpl in Huser.
  injection Huser as Huser.
  unfold create_roadmap, storage.show_User. unfold bind, lift, new_Roadmap.
  unfold bind, ret. cbv beta zeta.
  rewrite Huser_id, Htruthy. cbn [negb]. cbv beta iota zeta. rewrite Huser.
  cbv beta iota zeta.
  rewrite (yields_value JNull (py_getitem _ "Title")) by assumption.
  rewrite (yields_value JNull (py_getitem _ "Introduction")) by assumption.
  rewrite (yields_value JNull (py_getitem _ "AdditionalInfo")) by assumption.
  cbv beta iota zeta.
  rewrite new_id_written. cbv beta iota zeta.
  rewrite save_written, Hentries. cbv beta iota zeta.
  rewrite save_topics_written by assumption.
  rewrite save_written, !written_written. simpl.
  unfold create_saves, entries_of, roadmap_of. rewrite Hentries. simpl.
  rewrite !Nat.add_1_r, Nat.add_0_r. reflexivity.
Qed.

(** ** The saves of a run, table by table *)

Lemma topics_persist_all os t :
  topics (persist_all os t) =
    foldl (λ m x, <[Topic.id x := x]> m) (topics t) (omap the_topic os).
Proof.
  unfold persist_all. revert t.
  induction os as [|o os IH]; intros t; simpl; [reflexivity|].
  rewrite IH. destruct o; reflexivity.
Qed.

Lemma roadmaps_persist_all os t :
  roadmaps (persist_all os t) =
    foldl (λ m x, <[Roadmap.id x := x]> m) (roadmaps t) (omap the_roadmap os).
Proof.
  unfold persist_all. revert t.
  induction os as [|o os IH]; intros t; simpl; [reflexivity|].
  rewrite IH. destruct o; reflexivity.
Qed.

Lemma omap_the_topic_objectives l : omap the_topic (map OObjectives l) = [].
Proof. induction l; simpl; auto. Qed.

Lemma omap_the_topic_resources l : omap the_topic (map OResources l) = [].
Proof. induction l; simpl; auto. Qed.

Lemma omap_the_roadmap_objectives l : omap the_roadmap (map OObjectives l) = [].
Proof. induction l; simpl; auto. Qed.

Lemma omap_the_roadmap_resources l : omap the_roadmap (map OResources l) = [].
Proof. induction l; simpl; auto. Qed.

Lemma topics_of_topics_saves roadmap_id n position entries :
  omap the_topic (topics_saves roadmap_id n position entries) =
    planned_topics roadmap_id n position entries.
Proof.
  revert n position. induction entries as [|topic_data rest IH];
    intros n position; simpl; [reflexivity|].
  unfold topic_saves.
  rewrite !omap_app, omap_the_topic_objectives, omap_the_topic_resources, IH.
  reflexivity.
Qed.

Lemma roadmaps_of_topics_saves roadmap_id n position entries :
  omap the_roadmap (topics_saves roadmap_id n position entries) = [].
Proof.
  revert n position. induction entries as [|topic_data rest IH];
    intros n position; simpl; [reflexivity|].
  unfold topic_saves.
  rewrite !omap_app, omap_the_roadmap_objectives, omap_the_roadmap_resources, IH.
  reflexivity.
Qed.

Lemma planned_topics_names roadmap_id n position entries :
  map Topic.name (planned_topics roadmap_id n position entries) =
    map (λ topic_data, value JNull (py_getitem topic_data "TopicName")) entries.
Proof.
  revert n position. induction entries as [|topic_data rest IH];
    intros n position; simpl; [reflexivity|].
  rewrite IH. reflexivity.
Qed.

Lemma planned_topics_positions roadmap_id n (k : nat) entries :
  map Topic.position (planned_topics roadmap_id n (Z.of_nat k) entries) =
    map Z.of_nat (seq k (length entries)).
Proof.
  revert n k. induction entries as [|topic_data rest IH];
    intros n k; simpl; [reflexivity|].
  replace (Z.of_nat k + 1) with (Z.of_nat (S k)) by lia.
  rewrite IH. reflexivity.
Qed.

Lemma planned_topics_parent roadmap_id n position entries :
  Forall (λ x, Topic.roadmap_id x = roadmap_id)
         (planned_topics roadmap_id n position entries).
Proof.
  revert n position. induction entries as [|topic_data rest IH];
    intros n position; simpl; constructor; [reflexivity|apply IH].
Qed.

Lemma planned_topics_ids roadmap_id n position entries :
  Forall (λ x, ∃ m, (n ≤ m)%nat ∧ Topic.id x = uuid4 m)
         (planned_topics roadmap_id n position entries).
Proof.
  revert n position. induction entries as [|topic_data rest IH];
    intros n position; simpl; constructor.
  - exists n. split; [lia|reflexivity].
  - eapply Forall_impl; [apply IH|]. intros x (m & Hm & Hid).
    exists m. split; [lia|exact Hid].
Qed.

Global Instance uuid4_inj : Inj (=) (=) uuid4.
Proof. unfold uuid4. apply _. Qed.

Lemma planned_topics_NoDup roadmap_id n position entries :
  NoDup (map Topic.id (planned_topics roadmap_id n position entries)).
Proof.
  revert n position. induction entries as [|topic_data rest IH];
    intros n position; simpl; constructor; [|apply IH].
  intros Hin. apply list_elem_of_fmap in Hin as (x & Hid & Hx).
  pose proof (planned_topics_ids roadmap_id (n + ids_of topic_data)
                                 (position + 1) rest) as Hids.
  rewrite Forall_forall in Hids. destruct (Hids x Hx) as (m & Hm & Hxid).
  rewrite Hxid in Hid. apply (inj uuid4) in Hid. unfold ids_of in Hm. lia.
Qed.

Lemma planned_topics_ascending roadmap_id n position entries :
  StronglySorted (strictly_ordered Topic.position false)
                 (planned_topics roadmap_id n position entries).
Proof.
  assert (Hlow : ∀ entries n position,
            Forall (λ x, position ≤ Topic.position x)
                   (planned_topics roadmap_id n position entries)).
  { clear. induction entries as [|topic_data rest IH]; intros n position;
      simpl; [constructor|].
    constructor; [simpl; lia|].
    eapply Forall_impl; [apply IH|]. simpl. intros x Hx. lia. }
  revert n position. induction entries as [|topic_data rest IH];
    intros n position; simpl; [constructor|].
  constructor; [apply IH|].
  eapply Forall_impl; [apply Hlow|]. simpl.
  intros x Hx. unfold strictly_ordered, ordered, precedes. simpl. lia.
Qed.

(** ** Reading a roadmap back *)

Lemma foldl_insert_lookup_ne (T0 : gmap string Topic.t) ts k :
  k ∉ map Topic.id ts →
  foldl (λ m x, <[Topic.id x := x]> m) T0 ts !! k = T0 !! k.
Proof.
  revert T0. induction ts as [|x ts IH]; intros T0 Hk; simpl; [reflexivity|].
  simpl in Hk. apply not_elem_of_cons in Hk as [Hne Hk].
  rewrite IH by assumption. apply lookup_insert_ne. congruence.
Qed.

Lemma foldl_insert_lookup (T0 : gmap string Topic.t) ts x :
  NoDup (map Topic.id ts) → x ∈ ts →
  foldl (λ m x, <[Topic.id x := x]> m) T0 ts !! Topic.id x = Some x.
Proof.
  revert T0. induction ts as [|y ts IH]; intros T0 Hnodup Hx; simpl.
  - inversion Hx.
  - simpl in Hnodup. apply NoDup_cons in Hnodup as [Hy Hnodup].
    apply elem_of_cons in Hx as [->|Hx].
    + rewrite foldl_insert_lookup_ne by assumption. apply lookup_insert_eq.
    + apply IH; assumption.
Qed.

(** The topics of a parent that none of the stored topics names are,
    after they were written under fresh ids, what a fetch for that
    parent finds. *)
Lemma fetch_created (T0 : gmap string Topic.t) ts parent_id :
  NoDup (map Topic.id ts) →
  Forall (λ x, T0 !! Topic.id x = None ∧ Topic.roadmap_id x = parent_id) ts →
  map_Forall (λ _ x, Topic.roadmap_id x ≠ parent_id) T0 →
  (map_to_list
     (filter (λ kv, Topic.roadmap_id kv.2 = parent_id)
             (foldl (λ m x, <[Topic.id x := x]> m) T0 ts))).*2 ≡ₚ ts.
Proof.
  intros Hnodup Hfresh Hold.
  induction ts as [|x ts IH] using rev_ind; simpl.
  - rewrite map_empty_filter_2, map_to_list_empty; [reflexivity|].
    intros k y Hy. simpl. exact (Hold k y Hy).
  - rewrite map_app in Hnodup. simpl in Hnodup.
    apply NoDup_app in Hnodup as (Hnodup & Hdisjoint & _).
    apply Forall_app in Hfresh as [Hfresh Hx].
    apply Forall_singleton in Hx as [Hx Hparent].
    assert (Hnotin : Topic.id x ∉ map Topic.id ts).
    { intros Hin. apply (Hdisjoint _ Hin). left. }
    rewrite foldl_app. simpl.
    rewrite map_filter_insert_True by exact Hparent.
    rewrite map_to_list_insert.
    + rewrite fmap_cons. simpl. rewrite IH by assumption.
      apply Permutation_cons_append.
    + apply map_lookup_filter_None_2. left.
      rewrite foldl_insert_lookup_ne by assumption. exact Hx.
Qed.

(** The loop of [view_roadmap] reads the store and always completes. *)
Lemma collect_total values topics objectives resources w :
  ∃ found, collect values topics objectives resources w = (inr found, w).
Proof.
  revert objectives resources.
  induction topics as [|i rest IH]; intros objectives resources; simpl.
  - eexists. reflexivity.
  - unfold bind, storage.fetch_Objectives, storage.fetch_Resources.
    apply IH.
Qed.

(** What [view_roadmap] answers for a stored roadmap. *)
Lemma view_roadmap_stored values roadmap_id roadmap w :
  roadmaps (db w) !! roadmap_id = Some roadmap →
  ∃ resp,
    serve (view_roadmap values roadmap_id) w = (resp, w) ∧
    status resp = 200 ∧
    response_field resp "topics" =
      Some (PList (map Topic.to_dict
        (sorted (values _ (filter (λ kv, Topic.roadmap_id kv.2 = Roadmap.id roadmap)
                                  (topics (db w))))
                Topic.position false))).
Proof.
  intros Hsome. unfold serve, view_roadmap.
  unfold bind, storage.show_Roadmap, storage.fetch_Topic. rewrite Hsome.
  destruct (collect_total values
              (values _ (filter (λ kv, Topic.roadmap_id kv.2 = Roadmap.id roadmap)
                                (topics (db w)))) [] [] w) as [found Hfound].
  rewrite Hfound. eexists. split; [reflexivity|]. split; reflexivity.
Qed.

Lemma create_saves_roadmaps request_json user k w :
  roadmaps (db (written (create_saves request_json user w) k w)) =
    <[uuid4 (next_id w) := roadmap_of request_json (next_id w) (clock w)]>
      (roadmaps (db w)).
Proof.
  unfold written, create_saves. simpl.
  rewrite roadmaps_persist_all. simpl.
  rewrite omap_app, roadmaps_of_topics_saves. reflexivity.
Qed.

Lemma create_saves_topics request_json user k w :
  topics (db (written (create_saves request_json user w) k w)) =
    foldl (λ m x, <[Topic.id x := x]> m) (topics (db w))
          (planned_topics (uuid4 (next_id w)) (S (next_id w)) 1
                          (entries_of request_json)).
Proof.
  unfold written, create_saves. simpl.
  rewrite topics_persist_all. simpl.
  rewrite omap_app, topics_of_topics_saves. simpl.
  rewrite app_nil_r. reflexivity.
Qed.

(** C5.  A valid request is answered with 201; its topics get the
    positions 1, 2, 3, ... in the order of the request, and are stored;
    and [view_roadmap] of the new roadmap lists exactly these topics in
    that order, whatever order the storage hands its objects out in. *)
Theorem topics_in_input_order values request_json w :
  iteration_order values →
  fresh_ids w →
  valid_request request_json w = true →
  ∃ roadmap_id w' created,
    serve (create_roadmap request_json) w =
      (Response (JSON (PDict [("roadmap_id", PVal (JStr roadmap_id))])) 201, w') ∧
    map Topic.name created =
      map (λ topic_data, value JNull (py_getitem topic_data "TopicName"))
          (entries_of request_json) ∧
    map Topic.position created =
      map Z.of_nat (seq 1 (length (entries_of request_json))) ∧
    Forall (λ x, topics (db w') !! Topic.id x = Some x) created ∧
    ∃ resp,
      serve (view_roadmap values roadmap_id) w' = (resp, w') ∧
      status resp = 200 ∧
      response_field resp "topics" = Some (PList (map Topic.to_dict created)).
Proof.
  intros Hvalues Hfresh Hvalid.
  destruct (create_roadmap_written request_json w Hvalid) as (user & _ & Hrun).
  set (n := next_id w) in *.
  set (created := planned_topics (uuid4 n) (S n) 1 (entries_of request_json)).
  set (w' := written (create_saves request_json user w)
                     (S (ids_of_all (entries_of request_json))) w) in *.
  assert (Htopics : topics (db w') =
            foldl (λ m x, <[Topic.id x := x]> m) (topics (db w)) created)
    by apply create_saves_topics.
  assert (Hroadmap : roadmaps (db w') !! uuid4 n
                     = Some (roadmap_of request_json n (clock w))).
  { unfold w'. rewrite create_saves_roadmaps. apply lookup_insert_eq. }
  exists (uuid4 n), w', created.
  split; [unfold serve; rewrite Hrun; reflexivity|].
  split; [apply planned_topics_names|].
  split; [apply (planned_topics_positions (uuid4 n) (S n) 1)|].
  split.
  - rewrite Htopics. apply Forall_forall. intros x Hx.
    apply foldl_insert_lookup; [apply planned_topics_NoDup|exact Hx].
  - destruct (view_roadmap_stored values _ _ w' Hroadmap)
      as (resp & Hserve & Hstatus & Hfield).
    exists resp. split; [exact Hserve|]. split; [exact Hstatus|].
    rewrite Hfield. do 3 f_equal.
    apply sorted_unique; [apply planned_topics_ascending|].
    etransitivity; [apply Hvalues|].
    rewrite Htopics. simpl. apply fetch_created.
    + apply planned_topics_NoDup.
    + pose proof (planned_topics_ids (uuid4 n) (S n) 1 (entries_of request_json))
        as Hids.
      pose proof (planned_topics_parent (uuid4 n) (S n) 1 (entries_of request_json))
        as Hparent.
      rewrite Forall_forall in Hids, Hparent. apply Forall_forall.
      intros x Hx. split; [|apply Hparent, Hx].
      destruct (Hids x Hx) as (m & Hm & ->).
      apply (Hfresh m). unfold n in Hm. lia.
    + apply (Hfresh n). reflexivity.
Qed.

Lemma topics_in_input_order_witness :
  ∃ roadmap_id w' created,
    serve (create_roadmap SampleABC.request) Sample.world =
      (Response (JSON (PDict [("roadmap_id", PVal (JStr roadmap_id))])) 201, w') ∧
    map Topic.name created = [JStr "A"; JStr "B"; JStr "C"] ∧
    map Topic.position created = [1; 2; 3] ∧
    ∃ resp,
      serve (view_roadmap reversed_values roadmap_id) w' = (resp, w') ∧
      response_field resp "topics" = Some (PList (map Topic.to_dict created)).
Proof.
  destruct (topics_in_input_order reversed_values SampleABC.request Sample.world)
    as (roadmap_id & w' & created & Hrun & Hnames & Hpositions & _ & resp
        & Hview & _ & Hfield).
  - intros A d. unfold reversed_values. apply reverse_Permutation.
  - intros m _. simpl. split; [apply lookup_empty | apply map_Forall_empty].
  - reflexivity.
  - exists roadmap_id, w', created.
    split; [exact Hrun|]. split; [exact Hnames|]. split; [exact Hpositions|].
    exists resp. split; [exact Hview | exact Hfield].
Defined.

(** ** Every run of [create_roadmap] *)

Lemma objectives_child_of roadmap_id l :
  Forall (child_of roadmap_id) (map OObjectives l).
Proof. induction l; simpl; constructor; simpl; auto. Qed.

Lemma resources_child_of roadmap_id l :
  Forall (child_of roadmap_id) (map OResources l).
Proof. induction l; simpl; constructor; simpl; auto. Qed.

Ltac stop_here os k :=
  exists os, k; simpl;
  split; [rewrite ?written_written, ?written_nil; reflexivity|];
  repeat first [ apply Forall_app_2 | apply objectives_child_of
               | apply resources_child_of | apply Forall_nil_2 ].

(** Whether it completes or raises, the loop over the topics leaves a
    world in which some such objects were saved. *)
Lemma save_topics_shape roadmap position entries w :
  ∃ os k,
    (save_topics roadmap position entries w).2 = written os k w ∧
    Forall (child_of (Roadmap.id roadmap)) os.
Proof.
  revert position w. induction entries as [|topic_data rest IH];
    intros position w; simpl.
  - stop_here (@nil object) 0%nat.
  - unfold bind, lift, new_Topic. unfold bind, ret.
    destruct (py_getitem topic_data "TopicName"); [stop_here (@nil object) 0%nat|].
    destruct (py_getitem topic_data "Descriptions"); [stop_here (@nil object) 0%nat|].
    destruct (py_getitem topic_data "Milestones"); [stop_here (@nil object) 0%nat|].
    rewrite new_id_written.
    destruct (py_items topic_data "LearningObjectives") as [|texts];
      [stop_here (@nil object) 1%nat|].
    rewrite save_objectives_written.
    destruct (py_items topic_data "Resources") as [|links].
    { eexists _, _. simpl. rewrite written_written. split; [reflexivity|].
      apply objectives_child_of. }
    rewrite save_resources_written, save_written.
    match goal with |- context [save_topics _ ?p _ ?w1] =>
      destruct (IH p w1) as (os & k & Hw & Hos);
      destruct (save_topics roadmap p rest w1) as [[e|[]] w2] eqn:Hrun
    end; simpl in Hw; subst w2; rewrite !written_written;
      (eexists _, _; split; [reflexivity|]);
      repeat first [ apply Forall_app_2 | apply objectives_child_of
                   | apply resources_child_of | exact Hos ];
      repeat constructor.
Qed.

(** The loop over the topics completes only on valid entries. *)
Lemma save_topics_completes roadmap position entries w w' :
  save_topics roadmap position entries w = (inr tt, w') →
  forallb valid_topic entries = true.
Proof.
  revert position w w'. induction entries as [|topic_data rest IH];
    intros position w w'; simpl; [reflexivity|].
  unfold valid_topic, bind, lift, new_Topic. unfold bind, ret.
  destruct (py_getitem topic_data "TopicName"); [discriminate|].
  destruct (py_getitem topic_data "Descriptions"); [discriminate|].
  destruct (py_getitem topic_data "Milestones"); [discriminate|].
  rewrite new_id_written.
  destruct (py_items topic_data "LearningObjectives"); [discriminate|].
  rewrite save_objectives_written.
  destruct (py_items topic_data "Resources"); [discriminate|].
  rewrite save_resources_written, save_written. simpl.
  match goal with |- context [save_topics _ ?p _ ?w1] =>
    destruct (save_topics roadmap p rest w1) as [[e|[]] w2] eqn:Hrun
  end; [discriminate|].
  intros _. eapply IH. exact Hrun.
Qed.

(** Whether it completes or raises, [create_roadmap] leaves a world in
    which nothing was saved, or the new roadmap and after it some of its
    descendants and the user. *)
Lemma create_roadmap_shape request_json w :
  ∃ os k,
    (create_roadmap request_json w).2 = written os k w ∧
    (os = [] ∨
     ∃ os', os = ORoadmap (roadmap_of request_json (next_id w) (clock w)) :: os' ∧
            Forall (beside_roadmap (uuid4 (next_id w))) os').
Proof.
  unfold create_roadmap, storage.show_User. unfold bind, lift, new_Roadmap.
  unfold bind, ret. cbv beta zeta.
  destruct (truthy (dict_get request_json "user_id")); cbn [negb];
    [|stop_here (@nil object) 0%nat; left; reflexivity].
  destruct (truthy (dict_get request_json "Roadmap")); cbn [negb];
    [|stop_here (@nil object) 0%nat; left; reflexivity].
  cbv beta iota zeta.
  destruct (match dict_get request_json "user_id" with
            | JStr s => users (db w) !! s
            | _ => None
            end) as [user|];
    [|stop_here (@nil object) 0%nat; left; reflexivity].
  cbv beta iota zeta. unfold roadmap_of. cbv zeta.
  destruct (py_getitem _ "Title");
    [stop_here (@nil object) 0%nat; left; reflexivity|].
  destruct (py_getitem _ "Introduction");
    [stop_here (@nil object) 0%nat; left; reflexivity|].
  destruct (py_getitem _ "AdditionalInfo");
    [stop_here (@nil object) 0%nat; left; reflexivity|].
  cbv beta iota zeta. rewrite new_id_written. cbv beta iota zeta.
  rewrite save_written.
  destruct (py_items _ "Topics") as [|entries]; cbv beta iota zeta.
  { eexists _, _. rewrite written_written. split; [reflexivity|].
    right. eexists. split; [reflexivity|]. constructor. }
  match goal with |- context [save_topics ?r ?p _ ?w1] =>
    destruct (save_topics_shape r p entries w1) as (os & k & Hw & Hos);
    destruct (save_topics r p entries w1) as [[e|[]] w2] eqn:Hrun
  end; simpl in Hw; subst w2; cbv beta iota zeta;
    rewrite ?save_written, !written_written;
    (eexists _, _; split; [reflexivity|]);
    right; simpl; (eexists; split; [reflexivity|]);
    repeat apply Forall_app_2;
    try (eapply Forall_impl; [exact Hos|]; intros o Ho; left; exact Ho).
  apply Forall_singleton. right. eexists. reflexivity.
Qed.

(** [create_roadmap] completes only on a valid request. *)
Lemma create_roadmap_completes request_json w resp w' :
  create_roadmap request_json w = (inr resp, w') →
  valid_request request_json w = true.
Proof.
  unfold valid_request, valid_roadmap.
  unfold create_roadmap, storage.show_User. unfold bind, lift, new_Roadmap.
  unfold bind, ret. cbv beta zeta. simpl fst.
  destruct (truthy (dict_get request_json "user_id")); cbn [negb];
    [|discriminate].
  destruct (truthy (dict_get request_json "Roadmap")); cbn [negb];
    [|discriminate].
  cbv beta iota zeta.
  destruct (match dict_get request_json "user_id" with
            | JStr s => users (db w) !! s
            | _ => None
            end) as [user|]; [|discriminate].
  cbv beta iota zeta.
  destruct (py_getitem _ "Title"); [discriminate|].
  destruct (py_getitem _ "Introduction"); [discriminate|].
  destruct (py_getitem _ "AdditionalInfo"); [discriminate|].
  cbv beta iota zeta. rewrite new_id_written. cbv beta iota zeta.
  rewrite save_written.
  destruct (py_items _ "Topics") as [|entries]; [discriminate|].
  cbv beta iota zeta.
  match goal with |- context [save_topics ?r ?p _ ?w1] =>
    destruct (save_topics r p entries w1) as [[e|[]] w2] eqn:Hrun
  end; [discriminate|].
  intros _. simpl. eapply save_topics_completes. exact Hrun.
Qed.

(** ** Parents *)

Lemma stamped_fst t os : (stamped t os).*1 = os.
Proof.
  revert t. induction os as [|o os IH]; intros t; simpl; [reflexivity|].
  rewrite IH. reflexivity.
Qed.




Lemma objectives_of_parent topic_id n texts :
  Forall (λ x, Objectives.topic_id x = topic_id) (objectives_of topic_id n texts).
Proof.
  revert n. induction texts as [|text rest IH]; intros n; simpl;
    [constructor|].
  constructor; [reflexivity|apply IH].
Qed.

Lemma resources_of_parent topic_id n links :
  Forall (λ x, Resources.topic_id x = topic_id) (resources_of topic_id n links).
Proof.
  revert n. induction links as [|link rest IH]; intros n; simpl;
    [constructor|].
  constructor; [reflexivity|apply IH].
Qed.

Lemma descends_more roadmap_id saved saved' o :
  saved ⊆ saved' → descends roadmap_id saved o → descends roadmap_id saved' o.
Proof.
  intros Hsub. destruct o; simpl; try done;
    intros Hin; apply list_elem_of_fmap in Hin as (y & -> & Hy);
    apply list_elem_of_fmap; exists y; split; auto.
Qed.

Lemma topics_saves_descend roadmap_id n position entries :
  Forall (descends roadmap_id (planned_topics roadmap_id n position entries))
         (topics_saves roadmap_id n position entries).
Proof.
  revert n position. induction entries as [|topic_data rest IH];
    intros n position; simpl; [constructor|].
  unfold topic_saves. repeat apply Forall_app_2.
  - apply Forall_fmap. eapply Forall_impl; [apply objectives_of_parent|].
    intros x Hx. simpl. rewrite Hx. left.
  - apply Forall_fmap. eapply Forall_impl; [apply resources_of_parent|].
    intros x Hx. simpl. rewrite Hx. left.
  - apply Forall_singleton. reflexivity.
  - eapply Forall_impl; [apply IH|]. intros o.
    apply descends_more. intros x Hx. right. exact Hx.
Qed.

Lemma topics_saves_child_of roadmap_id n position entries :
  Forall (child_of roadmap_id) (topics_saves roadmap_id n position entries).
Proof.
  eapply Forall_impl; [apply topics_saves_descend|].
  intros o. destruct o; simpl; auto.
Qed.

(** C7.  When [create_roadmap] completes, the answer is 201 with the id
    of a roadmap that is stored with [planning] set and [in_progress] and
    [completed] unset, and that is the one roadmap the call saved. *)
Theorem created_roadmap_in_planning request_json w resp w' :
  create_roadmap request_json w = (inr resp, w') →
  ∃ r evs,
    resp = Response (JSON (PDict [("roadmap_id", PVal (JStr (Roadmap.id r)))])) 201 ∧
    roadmaps (db w') !! Roadmap.id r = Some r ∧
    flags r = (true, false, false) ∧
    journal w' = journal w ++ evs ∧
    omap the_roadmap evs.*1 = [r].
Proof.
  intros Hrun.
  destruct (create_roadmap_written request_json w
              (create_roadmap_completes _ _ _ _ Hrun)) as (user & _ & Hwritten).
  rewrite Hwritten in Hrun. injection Hrun as <- <-.
  exists (roadmap_of request_json (next_id w) (clock w)).
  exists (stamped (db w) (create_saves request_json user w)).
  split; [reflexivity|]. split; [|split; [reflexivity|split; [reflexivity|]]].
  - rewrite create_saves_roadmaps. apply lookup_insert_eq.
  - rewrite stamped_fst. unfold create_saves. simpl.
    rewrite omap_app, roadmaps_of_topics_saves. reflexivity.
Qed.

Lemma created_roadmap_in_planning_witness :
  ∃ r evs,
    (create_roadmap SampleABC.request Sample.world).1 =
      inr (Response (JSON (PDict [("roadmap_id", PVal (JStr (Roadmap.id r)))])) 201) ∧
    roadmaps (db (create_roadmap SampleABC.request Sample.world).2) !! Roadmap.id r
      = Some r ∧
    flags r = (true, false, false) ∧
    journal (create_roadmap SampleABC.request Sample.world).2 = [] ++ evs ∧
    omap the_roadmap evs.*1 = [r].
Proof.
  destruct (created_roadmap_in_planning SampleABC.request Sample.world
              (Response (JSON (PDict [("roadmap_id", PVal (JStr "0"))])) 201)
              (create_roadmap SampleABC.request Sample.world).2)
    as (r & evs & Hresp & Hstored & Hflags & Hjournal & Hsaved).
  - vm_compute. reflexivity.
  - exists r, evs. rewrite <- Hresp. repeat split; assumption.
Defined.

(** ** The invariants of the store *)

Lemma persist_all_keyed os t : keyed t → keyed (persist_all os t).
Proof.
  unfold persist_all. revert t. induction os as [|o os IH]; intros t Ht; simpl;
    [exact Ht|].
  apply IH, persist_keyed, Ht.
Qed.

(** Objects stay stored under their own ids through every run of
    [create_roadmap] and of [update_roadmap_status]. *)
Lemma create_roadmap_keyed request_json w :
  keyed (db w) → keyed (db (create_roadmap request_json w).2).
Proof.
  intros Hkeyed.
  destruct (create_roadmap_shape request_json w) as (os & k & -> & _).
  apply persist_all_keyed, Hkeyed.
Qed.

Lemma update_roadmap_status_keyed roadmap_id request_json w :
  keyed (db w) → keyed (db (update_roadmap_status roadmap_id request_json w).2).
Proof.
  intros Hkeyed. unfold update_roadmap_status. unfold_monad.
  destruct (roadmaps (db w) !! roadmap_id) as [roadmap|]; [|exact Hkeyed].
  destruct (truthy (dict_get request_json "new_status")); [|exact Hkeyed].
  simpl. apply (persist_keyed (ORoadmap _)), Hkeyed.
Qed.

Lemma planned_topics_ids_below roadmap_id n position entries :
  Forall (λ x, ∃ m, (n ≤ m < n + ids_of_all entries)%nat ∧ Topic.id x = uuid4 m)
         (planned_topics roadmap_id n position entries).
Proof.
  revert n position. induction entries as [|topic_data rest IH];
    intros n position; simpl; [constructor|].
  constructor.
  - exists n. split; [unfold ids_of; lia|reflexivity].
  - eapply Forall_impl; [apply IH|]. intros x (m & Hm & Hid).
    exists m. split; [unfold ids_of in *; lia|exact Hid].
Qed.

Lemma foldl_insert_Forall (P : string → Topic.t → Prop) (T0 : gmap string Topic.t) ts :
  map_Forall P T0 → Forall (λ x, P (Topic.id x) x) ts →
  map_Forall P (foldl (λ m x, <[Topic.id x := x]> m) T0 ts).
Proof.
  revert T0. induction ts as [|x ts IH]; intros T0 Hold Hnew; simpl; [exact Hold|].
  apply Forall_cons in Hnew as [Hx Hnew].
  apply IH; [|exact Hnew]. apply map_Forall_insert_2; assumption.
Qed.

(** The ids still to be handed out stay unused through the run of a
    valid request. *)
Lemma create_roadmap_fresh_ids request_json w :
  valid_request request_json w = true →
  fresh_ids w → fresh_ids (create_roadmap request_json w).2.
Proof.
  intros Hvalid Hfresh.
  destruct (create_roadmap_written request_json w Hvalid) as (user & _ & ->).
  cbn [snd]. intros m Hm. rewrite create_saves_topics.
  unfold written in Hm. cbn [next_id] in Hm.
  pose proof (planned_topics_ids_below (uuid4 (next_id w)) (S (next_id w)) 1
                                       (entries_of request_json)) as Hids.
  pose proof (planned_topics_parent (uuid4 (next_id w)) (S (next_id w)) 1
                                    (entries_of request_json)) as Hparent.
  rewrite Forall_forall in Hids, Hparent.
  split.
  - rewrite foldl_insert_lookup_ne; [apply (Hfresh m); lia|].
    intros Hin. apply list_elem_of_fmap in Hin as (x & Hid & Hx).
    destruct (Hids x Hx) as (m' & Hm' & Hxid).
    rewrite Hxid in Hid. apply (inj uuid4) in Hid. lia.
  - apply foldl_insert_Forall; [apply (Hfresh m); lia|].
    apply Forall_forall. intros x Hx. rewrite (Hparent x Hx).
    intros Heq. apply (inj uuid4) in Heq. lia.
Qed.

(** ** Requests that lack a member *)

(** C4, as stated, fails: for a stored user and a [Roadmap] object
    without the ["Topics"] key the answer is the framework's 500 page,
    not a 400, and the roadmap has been saved by then. *)
Lemma missing_topics_counterexample :
  create_roadmap SampleLacking.no_topics Sample.world =
    (inl (KeyError "Topics"),
     written [ORoadmap (roadmap_of SampleLacking.no_topics 0 100)] 1 Sample.world) ∧
  (serve (create_roadmap SampleLacking.no_topics) Sample.world).1 =
    Response ErrorPage 500 ∧
  roadmaps (db (serve (create_roadmap SampleLacking.no_topics) Sample.world).2) !! "0"
    = Some (Roadmap.Build "0" (JStr "u1") (JStr "Proofs") (JStr "From zero")
                          (JStr "Tips") true false false 100).
Proof. vm_compute. repeat split; reflexivity. Qed.

(** C4, amended.  [create_roadmap] answers 400 with nothing saved when
    the [user_id] or the [Roadmap] member is missing or falsy.  For a
    stored user and a [Roadmap] object, a missing ["Title"],
    ["Introduction"] or ["AdditionalInfo"] raises a [KeyError] nothing
    handles, answered with the framework's 500 page, with nothing saved; a
    missing ["Topics"] raises it after the roadmap was saved, and the
    roadmap stays; an empty list of topics is accepted with 201. *)
Theorem create_roadmap_lacking_members request_json w :
  (truthy (dict_get request_json "user_id") = false →
   serve (create_roadmap request_json) w = (bad_request [Lit "Missing User Id"], w)) ∧
  (truthy (dict_get request_json "user_id") = true →
   truthy (dict_get request_json "Roadmap") = false →
   serve (create_roadmap request_json) w = (bad_request [Lit "Missing Roadmap"], w)) ∧
  (∀ user members,
     (storage.show_User (dict_get request_json "user_id") w).1 = inr (Some user) →
     truthy (dict_get request_json "user_id") = true →
     dict_get request_json "Roadmap" = JObj members →
     members ≠ [] →
     (∀ k, k ∈ ["Title"; "Introduction"; "AdditionalInfo"] →
           assoc k members = None →
        ∃ k', k' ∈ ["Title"; "Introduction"; "AdditionalInfo"] ∧
              create_roadmap request_json w = (inl (KeyError k'), w) ∧
              serve (create_roadmap request_json) w = (Response ErrorPage 500, w)) ∧
     (is_Some (assoc "Title" members) →
      is_Some (assoc "Introduction" members) →
      is_Some (assoc "AdditionalInfo" members) →
      (assoc "Topics" members = None →
       create_roadmap request_json w =
         (inl (KeyError "Topics"),
          written [ORoadmap (roadmap_of request_json (next_id w) (clock w))] 1 w) ∧
       serve (create_roadmap request_json) w =
         (Response ErrorPage 500,
          written [ORoadmap (roadmap_of request_json (next_id w) (clock w))] 1 w)) ∧
      (assoc "Topics" members = Some (JArr []) →
       serve (create_roadmap request_json) w =
         (Response (JSON (PDict [("roadmap_id", PVal (JStr (uuid4 (next_id w))))])) 201,
          written [ORoadmap (roadmap_of request_json (next_id w) (clock w));
                   OUser user] 1 w)))).
Proof.
  split; [|split].
  - intros Huser_id. unfold serve, create_roadmap. unfold bind, abort, raise.
    cbv beta zeta. rewrite Huser_id. reflexivity.
  - intros Huser_id Hroadmap. unfold serve, create_roadmap.
    unfold bind, abort, raise, ret. cbv beta zeta.
    rewrite Huser_id, Hroadmap. reflexivity.
  - intros user members Huser Huser_id Hroadmap Hmembers.
    assert (Htruthy : truthy (dict_get request_json "Roadmap") = true).
    { rewrite Hroadmap. destruct members; [contradiction|reflexivity]. }
    unfold storage.show_User in Huser. simpl in Huser. injection Huser as Huser.
    unfold serve, create_roadmap, roadmap_of, storage.show_User.
    unfold bind, lift, new_Roadmap. unfold bind, ret. cbv beta zeta.
    rewrite Huser_id, Htruthy. cbn [negb]. cbv beta iota zeta.
    rewrite Huser. cbv beta iota zeta. rewrite Hroadmap.
    unfold py_items, py_getitem.
    split.
    + intros k Hk Hnone.
      destruct (assoc "Title" members) as [title|] eqn:Htitle.
      2:{ exists "Title". split; [repeat constructor|]. split; reflexivity. }
      destruct (assoc "Introduction" members) as [introduction|] eqn:Hintro.
      2:{ exists "Introduction". split; [repeat constructor|]. split; reflexivity. }
      destruct (assoc "AdditionalInfo" members) as [additional|] eqn:Hadditional.
      2:{ exists "AdditionalInfo". split; [repeat constructor|]. split; reflexivity. }
      exfalso. repeat (apply elem_of_cons in Hk as [->|Hk]); try congruence.
      inversion Hk.
    + intros [title Htitle] [introduction Hintro] [additional Hadditional].
      rewrite Htitle, Hintro, Hadditional. simpl value.
      cbv beta iota zeta. rewrite new_id_written. cbv beta iota zeta.
      rewrite save_written. split; intros Htopics; rewrite Htopics.
      * rewrite written_written. split; reflexivity.
      * cbv beta iota zeta. unfold py_iter. cbv beta iota zeta.
        simpl save_topics. unfold ret. rewrite save_written, !written_written.
        reflexivity.
Qed.

Lemma create_roadmap_lacking_members_witness :
  serve (create_roadmap SampleLacking.no_roadmap) Sample.world =
    (bad_request [Lit "Missing Roadmap"], Sample.world) ∧
  serve (create_roadmap SampleLacking.no_title) Sample.world =
    (Response ErrorPage 500, Sample.world) ∧
  serve (create_roadmap SampleLacking.no_topics) Sample.world =
    (Response ErrorPage 500,
     written [ORoadmap (roadmap_of SampleLacking.no_topics 0 100)] 1 Sample.world) ∧
  serve (create_roadmap SampleLacking.empty_topics) Sample.world =
    (Response (JSON (PDict [("roadmap_id", PVal (JStr "0"))])) 201,
     written [ORoadmap (roadmap_of SampleLacking.empty_topics 0 100);
              OUser Sample.user] 1 Sample.world).
Proof.
  split; [|split; [|split]].
  - apply (create_roadmap_lacking_members SampleLacking.no_roadmap Sample.world);
      reflexivity.
  - destruct (create_roadmap_lacking_members SampleLacking.no_title Sample.world)
      as (_ & _ & Hobject).
    destruct (Hobject Sample.user
                [("Introduction", JStr "From zero");
                 ("AdditionalInfo", JStr "Tips"); ("Topics", JArr [])])
      as [Hlacks _]; [reflexivity|reflexivity|reflexivity|discriminate|].
    destruct (Hlacks "Title") as (k & _ & _ & Hserve);
      [repeat constructor|reflexivity|exact Hserve].
  - destruct (create_roadmap_lacking_members SampleLacking.no_topics Sample.world)
      as (_ & _ & Hobject).
    destruct (Hobject Sample.user
                [("Title", JStr "Proofs"); ("Introduction", JStr "From zero");
                 ("AdditionalInfo", JStr "Tips")])
      as [_ Hpresent]; [reflexivity|reflexivity|reflexivity|discriminate|].
    destruct Hpresent as [Hmissing _]; [eexists; reflexivity..|].
    apply Hmissing. reflexivity.
  - destruct (create_roadmap_lacking_members SampleLacking.empty_topics Sample.world)
      as (_ & _ & Hobject).
    destruct (Hobject Sample.user
                [("Title", JStr "Proofs"); ("Introduction", JStr "From zero");
                 ("AdditionalInfo", JStr "Tips"); ("Topics", JArr [])])
      as [_ Hpresent]; [reflexivity|reflexivity|reflexivity|discriminate|].
    destruct Hpresent as [_ Hempty]; [eexists; reflexivity..|].
    apply Hempty. reflexivity.
Defined.

(** ** Accounts and sessions *)

(** X1.  A login the auth service does not accept is not answered with
    403: the [abort] call spells its keyword [desciption], which the
    exception's constructor refuses, so the view raises a [TypeError] and
    the answer is the framework's 500 page.  No session is created: the
    world is the one [AUTH.valid_login] left. *)
Theorem login_rejected_is_500 AUTH_valid_login AUTH_create_session form w w1 :
  AUTH_valid_login (form_get form "email") (form_get form "password") w
    = (inr false, w1) →
  login AUTH_valid_login AUTH_create_session form w =
    (inl (TypeError
            "HTTPException.__init__() got an unexpected keyword argument 'desciption'"),
     w1) ∧
  serve_reply (login AUTH_valid_login AUTH_create_session form) w =
    (Plain (Response ErrorPage 500), w1).
Proof.
  intros Hcall. unfold serve_reply, login, abort_keyword. unfold_monad.
  rewrite Hcall. split; reflexivity.
Qed.

Lemma login_rejected_is_500_witness :
  serve_reply (login SampleAuth.valid_login SampleAuth.create_session
                     [("email", "ada@example.org"); ("password", "guess")])
              Sample.world =
    (Plain (Response ErrorPage 500), Sample.world).
Proof.
  apply (login_rejected_is_500 SampleAuth.valid_login SampleAuth.create_session).
  reflexivity.
Defined.

(** X2.  A login the auth service accepts creates a session for the
    email of the form and answers 200 with the email and with the cookie
    [session_id] set to the id [AUTH.create_session] returned. *)
Theorem login_accepted_sets_cookie
    AUTH_valid_login AUTH_create_session form w w1 session_id w2 :
  AUTH_valid_login (form_get form "email") (form_get form "password") w
    = (inr true, w1) →
  AUTH_create_session (form_get form "email") w1 = (inr session_id, w2) →
  serve_reply (login AUTH_valid_login AUTH_create_session form) w =
    (WithCookie
       (Response (JSON (PDict [("email", PVal (opt_str (form_get form "email")));
                               ("message", PText [Lit "logged in"])])) 200)
       "session_id" session_id, w2).
Proof.
  intros Hvalid Hsession. unfold serve_reply, login. unfold_monad.
  rewrite Hvalid. simpl. rewrite Hsession. reflexivity.
Qed.

Lemma login_accepted_sets_cookie_witness :
  serve_reply (login SampleAuth.valid_login SampleAuth.create_session
                     [("email", "ada@example.org"); ("password", "pw")])
              Sample.world =
    (WithCookie
       (Response (JSON (PDict [("email", PVal (JStr "ada@example.org"));
                               ("message", PText [Lit "logged in"])])) 200)
       "session_id" "session-1", Sample.world).
Proof.
  apply (login_accepted_sets_cookie SampleAuth.valid_login SampleAuth.create_session
           [("email", "ada@example.org"); ("password", "pw")]
           Sample.world Sample.world "session-1" Sample.world); reflexivity.
Defined.

(** X3.  A logout whose session cookie names no user (or that has no
    cookie) is answered with 404 and [{"Error": "User not found"}], and
    no session is destroyed; a logout of a user's session destroys the
    session of that user's id and redirects to [/]. *)
Theorem logout_outcomes
    AUTH_get_user_from_session_id AUTH_destroy_session cookies w found w1 :
  AUTH_get_user_from_session_id (cookies_get cookies "session_id") w
    = (inr found, w1) →
  (found = None →
   serve_reply (logout AUTH_get_user_from_session_id AUTH_destroy_session cookies) w =
     (Plain (Response (JSON (PDict [("Error", PText [Lit "User not found"])])) 404),
      w1)) ∧
  (∀ user w2, found = Some user →
     AUTH_destroy_session (User.id user) w1 = (inr tt, w2) →
     serve_reply (logout AUTH_get_user_from_session_id AUTH_destroy_session cookies) w =
       (Redirect "/", w2)).
Proof.
  intros Hfound. split.
  - intros ->. unfold serve_reply, logout. unfold_monad.
    rewrite Hfound. reflexivity.
  - intros user w2 -> Hdestroy. unfold serve_reply, logout. unfold_monad.
    rewrite Hfound. simpl. rewrite Hdestroy. reflexivity.
Qed.

Lemma logout_outcomes_witness :
  serve_reply (logout SampleAuth.get_user_from_session_id
                      SampleAuth.destroy_session []) Sample.world =
    (Plain (Response (JSON (PDict [("Error", PText [Lit "User not found"])])) 404),
     Sample.world) ∧
  (serve_reply (logout SampleAuth.get_user_from_session_id
                       SampleAuth.destroy_session [("session_id", "session-1")])
               Sample.world).1 = Redirect "/".
Proof.
  split.
  - apply (logout_outcomes SampleAuth.get_user_from_session_id
             SampleAuth.destroy_session [] Sample.world None Sample.world);
      reflexivity.
  - destruct (logout_outcomes SampleAuth.get_user_from_session_id
                SampleAuth.destroy_session [("session_id", "session-1")]
                Sample.world (Some Sample.user) Sample.world) as [_ Hknown];
      [reflexivity|].
    rewrite (Hknown Sample.user
               (SampleAuth.destroy_session "u1" Sample.world).2);
      reflexivity.
Defined.

(** X4.  The profile of a session's user is answered with 200, the
    user's email and a name that joins first and last name with a space;
    a name the user has not got reads as the text [None].  A session
    that names no user is answered with 404 and
    [{"Error": "User not found"}]. *)
Theorem profile_outcomes AUTH_get_user_from_session_id cookies w found w1 :
  AUTH_get_user_from_session_id (cookies_get cookies "session_id") w
    = (inr found, w1) →
  serve (profile AUTH_get_user_from_session_id cookies) w =
    (match found with
     | None => Response (JSON (PDict [("Error", PText [Lit "User not found"])])) 404
     | Some user =>
         Response
           (JSON (PDict [("email", PVal (opt_str (User.email user)));
                         ("name",
                          PText [Lit (default "None" (User.first_name user));
                                 Lit " ";
                                 Lit (default "None" (User.last_name user))])]))
           200
     end, w1).
Proof.
  intros Hfound. unfold serve, profile. unfold_monad. rewrite Hfound.
  destruct found as [user|]; [|reflexivity]. simpl.
  destruct (User.first_name user), (User.last_name user); reflexivity.
Qed.

Lemma profile_outcomes_witness :
  serve (profile (λ _, ret (Some (User.Build "0" None None None None None None)))
                 [("session_id", "session-1")]) Sample.world =
    (Response
       (JSON (PDict [("email", PVal JNull);
                     ("name", PText [Lit "None"; Lit " "; Lit "None"])]))
       200, Sample.world).
Proof.
  apply (profile_outcomes
           (λ _, ret (Some (User.Build "0" None None None None None None)))
           [("session_id", "session-1")] Sample.world
           (Some (User.Build "0" None None None None None None)) Sample.world).
  reflexivity.
Defined.

(** X5.  When the auth service refuses to issue a reset token with a
    [ValueError], the answer is not 403: the [abort] in the [except]
    branch spells its keyword [desciption], so a [TypeError] leaves the
    view and the answer is the framework's 500 page.  When a token is
    issued the answer is 200 with the email and the token. *)
Theorem reset_token_outcomes AUTH_get_reset_password_token form w w1 :
  (∀ msg,
     AUTH_get_reset_password_token (form_get form "email") w
       = (inl (ValueError msg), w1) →
     serve (get_reset_password_token AUTH_get_reset_password_token form) w =
       (Response ErrorPage 500, w1)) ∧
  (∀ token,
     AUTH_get_reset_password_token (form_get form "email") w = (inr token, w1) →
     serve (get_reset_password_token AUTH_get_reset_password_token form) w =
       (Response (JSON (PDict [("email", PVal (opt_str (form_get form "email")));
                               ("reset_token", PVal (JStr token))])) 200, w1)).
Proof.
  split; intros ? Hcall;
    unfold serve, get_reset_password_token, abort_keyword; unfold_monad;
    rewrite Hcall; reflexivity.
Qed.

Lemma reset_token_outcomes_witness :
  serve (get_reset_password_token SampleAuth.get_reset_password_token
                                  [("email", "nobody@example.org")])
        Sample.world = (Response ErrorPage 500, Sample.world) ∧
  serve (get_reset_password_token SampleAuth.get_reset_password_token
                                  [("email", "ada@example.org")])
        Sample.world =
    (Response (JSON (PDict [("email", PVal (JStr "ada@example.org"));
                            ("reset_token", PVal (JStr "token-1"))])) 200,
     Sample.world).
Proof.
  split.
  - apply (reset_token_outcomes SampleAuth.get_reset_password_token
             [("email", "nobody@example.org")] Sample.world Sample.world)
      with (msg := [JStr "User not found"]).
    reflexivity.
  - apply (reset_token_outcomes SampleAuth.get_reset_password_token
             [("email", "ada@example.org")] Sample.world Sample.world).
    reflexivity.
Defined.

(** X6.  When the auth service refuses a password update with a
    [ValueError], the answer is 403 with
    [{"Error": "Invalid credentials"}]; when it accepts, the answer is
    200 and echoes the email of the form, which the auth service is not
    given. *)
Theorem update_password_outcomes AUTH_update_password form w w1 :
  (∀ msg,
     AUTH_update_password (form_get form "reset_token")
                          (form_get form "new_password") w
       = (inl (ValueError msg), w1) →
     serve (update_password AUTH_update_password form) w =
       (Response (JSON (PDict [("Error", PText [Lit "Invalid credentials"])])) 403,
        w1)) ∧
  (AUTH_update_password (form_get form "reset_token")
                        (form_get form "new_password") w = (inr tt, w1) →
   serve (update_password AUTH_update_password form) w =
     (Response (JSON (PDict [("email", PVal (opt_str (form_get form "email")));
                             ("message", PText [Lit "Password updated"])])) 200,
      w1)).
Proof.
  split; [intros msg Hcall|intros Hcall];
    unfold serve, update_password; unfold_monad; rewrite Hcall; reflexivity.
Qed.

Lemma update_password_outcomes_witness :
  serve (update_password SampleAuth.update_password
                         [("reset_token", "stale"); ("new_password", "pw2")])
        Sample.world =
    (Response (JSON (PDict [("Error", PText [Lit "Invalid credentials"])])) 403,
     Sample.world) ∧
  serve (update_password SampleAuth.update_password
                         [("email", "someone@else.example");
                          ("reset_token", "token-1"); ("new_password", "pw2")])
        Sample.world =
    (Response (JSON (PDict [("email", PVal (JStr "someone@else.example"));
                            ("message", PText [Lit "Password updated"])])) 200,
     Sample.world).
Proof.
  split.
  - apply (update_password_outcomes SampleAuth.update_password
             [("reset_token", "stale"); ("new_password", "pw2")]
             Sample.world Sample.world)
      with (msg := [JStr "Invalid reset token"]).
    reflexivity.
  - apply (update_password_outcomes SampleAuth.update_password
             [("email", "someone@else.example");
              ("reset_token", "token-1"); ("new_password", "pw2")]
             Sample.world Sample.world).
    reflexivity.
Defined.

(** X7.  [delete_user] asks for both fields before it calls the auth
    service: a missing or empty email is answered with 400 and
    [{"Error": "Missing Email"}] (also when the password is missing
    too), a missing or empty password with 400 and
    [{"Error": "Missing password"}]; the auth service is not called and
    the world stays as it was. *)
Theorem delete_user_missing_fields AUTH_delete_user form w :
  (truthy (opt_str (form_get form "email")) = false →
   serve (delete_user AUTH_delete_user form) w =
     (Response (JSON (PDict [("Error", PText [Lit "Missing Email"])])) 400, w)) ∧
  (truthy (opt_str (form_get form "email")) = true →
   truthy (opt_str (form_get form "password")) = false →
   serve (delete_user AUTH_delete_user form) w =
     (Response (JSON (PDict [("Error", PText [Lit "Missing password"])])) 400, w)).
Proof.
  split; [intros Hemail|intros Hemail Hpassword];
    unfold serve, delete_user; unfold_monad; rewrite Hemail;
    [|rewrite Hpassword]; reflexivity.
Qed.

Lemma delete_user_missing_fields_witness :
  serve (delete_user SampleAuth.delete_user [("email", "")]) Sample.world =
    (Response (JSON (PDict [("Error", PText [Lit "Missing Email"])])) 400,
     Sample.world) ∧
  serve (delete_user SampleAuth.delete_user [("email", "ada@example.org")])
        Sample.world =
    (Response (JSON (PDict [("Error", PText [Lit "Missing password"])])) 400,
     Sample.world).
Proof.
  split.
  - apply (delete_user_missing_fields SampleAuth.delete_user [("email", "")]).
    reflexivity.
  - apply (delete_user_missing_fields SampleAuth.delete_user
             [("email", "ada@example.org")]); reflexivity.
Defined.



(** ** More on creating roadmaps *)

(** X9.  A request whose [user_id] names no stored user (a string that
    is no stored id, or a truthy value that is no string) is answered
    with 404 and [{"Error": "User id: <id> Not Found"}], and nothing is
    saved. *)
Theorem create_roadmap_unknown_user request_json w :
  truthy (dict_get request_json "user_id") = true →
  truthy (dict_get request_json "Roadmap") = true →
  (storage.show_User (dict_get request_json "user_id") w).1 = inr None →
  serve (create_roadmap request_json) w =
    (Response
       (JSON (PDict [("Error",
          PText ([Lit "User id: "] ++ py_str (dict_get request_json "user_id")
                 ++ [Lit " Not Found"]))]))
       404, w).
Proof.
  intros Huser_id Hroadmap Hnone.
  unfold storage.show_User in Hnone. simpl in Hnone. injection Hnone as Hnone.
  unfold serve, create_roadmap, storage.show_User. unfold bind, abort, raise, ret.
  cbv beta zeta. rewrite Huser_id, Hroadmap. cbn [negb]. cbv beta iota zeta.
  rewrite Hnone. reflexivity.
Qed.

Lemma create_roadmap_unknown_user_witness :
  serve (create_roadmap [("user_id", JNum 7); ("Roadmap", JObj [("Title", JStr "T")])])
        Sample.world =
    (Response
       (JSON (PDict [("Error",
          PText [Lit "User id: "; Lit "7"; Lit " Not Found"])]))
       404, Sample.world).
Proof.
  apply (create_roadmap_unknown_user
           [("user_id", JNum 7); ("Roadmap", JObj [("Title", JStr "T")])]
           Sample.world); reflexivity.
Defined.

(** X10.  [create_roadmap] completes exactly on the valid requests, and
    then with 201: with both members truthy, the user stored, the three
    texts of the roadmap present, and a [Topics] member that can be
    looped over and whose every entry has its three texts and two
    members that can be looped over. *)
Theorem create_roadmap_completes_iff request_json w :
  (∃ resp w', create_roadmap request_json w = (inr resp, w')) ↔
  valid_request request_json w = true ∧
  status (serve (create_roadmap request_json) w).1 = 201.
Proof.
  split.
  - intros (resp & w' & Hrun).
    pose proof (create_roadmap_completes _ _ _ _ Hrun) as Hvalid.
    split; [exact Hvalid|].
    destruct (create_roadmap_written _ _ Hvalid) as (user & _ & Hwritten).
    unfold serve. rewrite Hwritten. reflexivity.
  - intros [Hvalid _].
    destruct (create_roadmap_written _ _ Hvalid) as (user & _ & Hwritten).
    eexists _, _. exact Hwritten.
Qed.

Lemma create_roadmap_completes_iff_witness :
  (∃ resp w', create_roadmap SampleABC.request Sample.world = (inr resp, w')) ∧
  ¬ (∃ resp w', create_roadmap SampleLacking.no_topics Sample.world = (inr resp, w')).
Proof.
  split.
  - apply create_roadmap_completes_iff. split; [reflexivity|].
    vm_compute. reflexivity.
  - intros Hrun. apply create_roadmap_completes_iff in Hrun as [Hvalid _].
    discriminate Hvalid.
Defined.

(** ** More on reading roadmaps *)

(** X11.  For a stored roadmap [view_roadmap] changes nothing and
    answers 200 with the roadmap itself and, under ["topics"], each
    stored topic of that roadmap once and no other topic, in ascending
    order of position, whatever order the storage hands them out in. *)
Theorem view_roadmap_own_topics values roadmap_id roadmap w :
  iteration_order values →
  roadmaps (db w) !! roadmap_id = Some roadmap →
  ∃ resp listed,
    serve (view_roadmap values roadmap_id) w = (resp, w) ∧
    status resp = 200 ∧
    response_field resp "roadmap" = Some (Roadmap.to_dict roadmap) ∧
    response_field resp "topics" = Some (PList (map Topic.to_dict listed)) ∧
    listed ≡ₚ (map_to_list (filter (λ kv, Topic.roadmap_id kv.2 = Roadmap.id roadmap)
                                   (topics (db w)))).*2 ∧
    (∀ x, x ∈ listed ↔
          ∃ k, topics (db w) !! k = Some x ∧
               Topic.roadmap_id x = Roadmap.id roadmap) ∧
    StronglySorted (λ a b, Topic.position a ≤ Topic.position b) listed.
Proof.
  intros Hvalues Hsome.
  set (fetched := filter (λ kv, Topic.roadmap_id kv.2 = Roadmap.id roadmap)
                         (topics (db w))).
  assert (Hperm : sorted (values _ fetched) Topic.position false
                  ≡ₚ (map_to_list fetched).*2).
  { rewrite sorted_perm. apply Hvalues. }
  unfold serve, view_roadmap.
  unfold bind, storage.show_Roadmap, storage.fetch_Topic. rewrite Hsome.
  fold fetched.
  destruct (collect_total values (values _ fetched) [] [] w) as [found Hfound].
  rewrite Hfound.
  eexists _, (sorted (values _ fetched) Topic.position false).
  split; [reflexivity|]. split; [reflexivity|]. split; [reflexivity|].
  split; [reflexivity|]. split; [exact Hperm|]. split.
  - intros x. rewrite Hperm. rewrite list_elem_of_fmap. split.
    + intros ([k y] & -> & Hin). apply elem_of_map_to_list in Hin.
      apply map_lookup_filter_Some in Hin as [Hin HP]. exists k. split; assumption.
    + intros (k & Hin & HP). exists (k, x). split; [reflexivity|].
      apply elem_of_map_to_list, map_lookup_filter_Some. split; assumption.
  - eapply StronglySorted_mono; [|apply sorted_sorted].
    intros x y. unfold ordered, precedes. lia.
Qed.

Lemma view_roadmap_own_topics_witness :
  ∃ resp listed,
    serve (view_roadmap reversed_values "r1") Sample.world = (resp, Sample.world) ∧
    status resp = 200 ∧
    response_field resp "roadmap" = Some (Roadmap.to_dict Sample.roadmap) ∧
    response_field resp "topics" = Some (PList (map Topic.to_dict listed)).
Proof.
  destruct (view_roadmap_own_topics reversed_values "r1" Sample.roadmap Sample.world)
    as (resp & listed & H1 & H2 & H3 & H4 & _).
  - intros A d. unfold reversed_values. apply reverse_Permutation.
  - reflexivity.
  - exists resp, listed. repeat split; assumption.
Defined.

(** ** More on status updates and deletion *)

(** The run of an update to one of the three statuses. *)
Lemma update_roadmap_status_run roadmap_id request_json w roadmap f :
  roadmaps (db w) !! roadmap_id = Some roadmap →
  status_flags (dict_get request_json "new_status") = Some f →
  update_roadmap_status roadmap_id request_json w =
    (inr (Response
            (JSON (PDict [("message",
               PText ([Lit "Roadmap status ("]
                      ++ py_str (dict_get request_json "new_status")
                      ++ [Lit ") updated successfully"]))]))
            200),
     written [ORoadmap (with_flags f roadmap)] 0 w).
Proof.
  intros Hsome Hflags. unfold status_flags in Hflags.
  assert (Htruthy : truthy (dict_get request_json "new_status") = true).
  { destruct (dict_get request_json "new_status") as [| | |s| |];
      try discriminate Hflags.
    destruct s; [discriminate Hflags | reflexivity]. }
  unfold update_roadmap_status. unfold try_except, bind, ret.
  unfold storage.show_Roadmap. rewrite Hsome, Htruthy. cbn [negb].
  cbv beta iota zeta. rewrite save_written.
  destruct (eq_str _ "planning");
    [|destruct (eq_str _ "in_progress");
      [|destruct (eq_str _ "completed"); [|discriminate Hflags]]];
    injection Hflags as <-; reflexivity.
Qed.

(** X12.  An update of a stored roadmap to one of the three statuses
    changes the three flags of that roadmap and nothing else: its other
    columns, every other roadmap and every user, topic, objective and
    resource are as before, and no id is handed out. *)
Theorem update_status_changes_flags_only roadmap_id request_json w roadmap f :
  keyed (db w) →
  roadmaps (db w) !! roadmap_id = Some roadmap →
  status_flags (dict_get request_json "new_status") = Some f →
  db (serve (update_roadmap_status roadmap_id request_json) w).2 =
    MkTables (users (db w)) (<[roadmap_id := with_flags f roadmap]> (roadmaps (db w)))
             (topics (db w)) (objectives (db w)) (resources (db w)) ∧
  next_id (serve (update_roadmap_status roadmap_id request_json) w).2 = next_id w ∧
  (∀ k, k ≠ roadmap_id →
     roadmaps (db (serve (update_roadmap_status roadmap_id request_json) w).2) !! k
     = roadmaps (db w) !! k).
Proof.
  intros (_ & Hkeyed & _) Hsome Hflags.
  assert (Hid : Roadmap.id roadmap = roadmap_id) by exact (Hkeyed _ _ Hsome).
  unfold serve. rewrite (update_roadmap_status_run _ _ _ _ _ Hsome Hflags).
  unfold written, persist_all. simpl. rewrite Hid.
  split; [reflexivity|]. split; [lia|].
  intros k Hk. apply lookup_insert_ne. congruence.
Qed.

Lemma update_status_changes_flags_only_witness :
  db (serve (update_roadmap_status "r1" [("new_status", JStr "in_progress")])
            Sample.world).2 =
    MkTables {["u1" := Sample.user]}
             (<["r1" := with_flags (false, true, false) Sample.roadmap]>
                {["r1" := Sample.roadmap]})
             ∅ ∅ ∅.
Proof.
  apply (update_status_changes_flags_only "r1" [("new_status", JStr "in_progress")]
           Sample.world Sample.roadmap (false, true, false)).
  - solve_keyed.
  - reflexivity.
  - reflexivity.
Defined.

(** X13.  The last of two updates of a stored roadmap to statuses among
    the three decides: the store after both is the store after the
    second alone. *)
Theorem update_status_last_wins roadmap_id first second w roadmap f1 f2 :
  keyed (db w) →
  roadmaps (db w) !! roadmap_id = Some roadmap →
  status_flags (dict_get first "new_status") = Some f1 →
  status_flags (dict_get second "new_status") = Some f2 →
  db (serve (update_roadmap_status roadmap_id second)
            (serve (update_roadmap_status roadmap_id first) w).2).2 =
  db (serve (update_roadmap_status roadmap_id second) w).2.
Proof.
  intros Hkeyed Hsome Hf1 Hf2.
  pose proof Hkeyed as (_ & Hroadmaps & _).
  assert (Hid : Roadmap.id roadmap = roadmap_id) by exact (Hroadmaps _ _ Hsome).
  unfold serve at 2 3.
  rewrite (update_roadmap_status_run _ first _ _ _ Hsome Hf1).
  rewrite (update_roadmap_status_run _ second _ _ _ Hsome Hf2).
  unfold serve.
  rewrite (update_roadmap_status_run roadmap_id second _ (with_flags f1 roadmap) f2).
  - unfold written, persist_all. simpl. rewrite Hid, insert_insert_eq.
    reflexivity.
  - unfold written, persist_all. simpl. rewrite Hid. apply lookup_insert_eq.
  - exact Hf2.
Qed.

Lemma update_status_last_wins_witness :
  db (serve (update_roadmap_status "r1" [("new_status", JStr "planning")])
            (serve (update_roadmap_status "r1" [("new_status", JStr "completed")])
                   Sample.world).2).2 =
  db (serve (update_roadmap_status "r1" [("new_status", JStr "planning")])
            Sample.world).2.
Proof.
  apply (update_status_last_wins "r1" [("new_status", JStr "completed")]
           [("new_status", JStr "planning")] Sample.world Sample.roadmap
           (false, false, true) (true, false, false)).
  - solve_keyed.
  - reflexivity.
  - reflexivity.
  - reflexivity.
Defined.

(** X14.  Deleting a stored roadmap is answered with 200 and removes
    that roadmap and no other; afterwards the roadmap cannot be viewed
    (404) and a second deletion is answered with 404 and
    [{"Error": "Roadmap Not Found"}]. *)
Theorem delete_roadmap_removes values roadmap_id roadmap w :
  keyed (db w) →
  roadmaps (db w) !! roadmap_id = Some roadmap →
  (serve (delete_roadmap roadmap_id) w).1 =
    Response (JSON (PDict [("message", PText [Lit "Roadmap Deleted Successfully"])]))
             200 ∧
  roadmaps (db (serve (delete_roadmap roadmap_id) w).2) =
    delete roadmap_id (roadmaps (db w)) ∧
  status (serve (view_roadmap values roadmap_id)
                (serve (delete_roadmap roadmap_id) w).2).1 = 404 ∧
  serve (delete_roadmap roadmap_id) (serve (delete_roadmap roadmap_id) w).2 =
    (Response (JSON (PDict [("Error", PText [Lit "Roadmap Not Found"])])) 404,
     (serve (delete_roadmap roadmap_id) w).2).
Proof.
  intros (_ & Hkeyed & _) Hsome.
  assert (Hid : Roadmap.id roadmap = roadmap_id) by exact (Hkeyed _ _ Hsome).
  assert (Hrun : serve (delete_roadmap roadmap_id) w =
    (Response (JSON (PDict [("message", PText [Lit "Roadmap Deleted Successfully"])]))
              200,
     MkWorld (MkTables (users (db w)) (delete roadmap_id (roadmaps (db w)))
                       (topics (db w)) (objectives (db w)) (resources (db w)))
             (next_id w) (clock w) (journal w))).
  { unfold serve, delete_roadmap, storage.delete_Roadmap. unfold_monad.
    rewrite Hsome. simpl. rewrite Hid. reflexivity. }
  rewrite Hrun. cbn [fst snd].
  split; [reflexivity|]. split; [reflexivity|]. split.
  - unfold serve, view_roadmap. unfold_monad. simpl.
    rewrite lookup_delete_eq. reflexivity.
  - unfold serve, delete_roadmap. unfold_monad. simpl.
    rewrite lookup_delete_eq. reflexivity.
Qed.

Lemma delete_roadmap_removes_witness :
  roadmaps (db (serve (delete_roadmap "r1") Sample.world).2) =
    delete "r1" {["r1" := Sample.roadmap]} ∧
  status (serve (view_roadmap listed_values "r1")
                (serve (delete_roadmap "r1") Sample.world).2).1 = 404.
Proof.
  destruct (delete_roadmap_removes listed_values "r1" Sample.roadmap Sample.world)
    as (_ & Hgone & Hview & _).
  - solve_keyed.
  - reflexivity.
  - split; assumption.
Defined.

(** ** More on the dashboard *)

Lemma insert_by_filter {A} (key : A → Z) (reverse : bool) (k : Z) x l :
  filter (λ y, key y = k) (insert_by key reverse x l) =
  filter (λ y, key y = k) (x :: l).
Proof.
  induction l as [|y l IH]; simpl; [reflexivity|].
  destruct (precedes reverse (key x) (key y)) eqn:E; [reflexivity|].
  assert (Hne : key y ≠ key x).
  { unfold precedes in E. destruct reverse; lia. }
  rewrite (filter_cons _ y), IH, !filter_cons.
  repeat case_decide; try reflexivity; congruence.
Qed.

(** Sorting is stable: the elements of one key keep their order. *)
Lemma sorted_stable {A} (key : A → Z) (reverse : bool) (k : Z) l :
  filter (λ y, key y = k) (sorted l key reverse) = filter (λ y, key y = k) l.
Proof.
  induction l as [|x l IH]; simpl; [reflexivity|].
  fold (sorted l key reverse). rewrite insert_by_filter, !filter_cons, IH.
  reflexivity.
Qed.

(** X15.  The dashboard changes nothing, and roadmaps created at the same
    time come out in the order the storage hands them out in. *)
Theorem dashboard_ties_keep_order values w :
  ∃ data,
    serve (dashboard values) w =
      (Response (JSON (PList (map Roadmap.to_dict data))) 200, w) ∧
    ∀ t, filter (λ r, Roadmap.created_at r = t) data =
         filter (λ r, Roadmap.created_at r = t) (values _ (roadmaps (db w))).
Proof.
  exists (sorted (values _ (roadmaps (db w))) Roadmap.created_at true).
  split; [reflexivity|]. intros t. apply sorted_stable.
Qed.

(** X16.  After a valid request was carried through, with the id of the
    new roadmap unused before, the dashboard lists the new roadmap
    beside every roadmap stored before, each once, newest first. *)
Theorem dashboard_after_create values request_json w :
  iteration_order values →
  roadmaps (db w) !! uuid4 (next_id w) = None →
  valid_request request_json w = true →
  ∃ data,
    serve (dashboard values) (serve (create_roadmap request_json) w).2 =
      (Response (JSON (PList (map Roadmap.to_dict data))) 200,
       (serve (create_roadmap request_json) w).2) ∧
    data ≡ₚ roadmap_of request_json (next_id w) (clock w)
            :: (map_to_list (roadmaps (db w))).*2 ∧
    StronglySorted (λ a b, Roadmap.created_at b ≤ Roadmap.created_at a) data.
Proof.
  intros Hvalues Hunused Hvalid.
  destruct (create_roadmap_written request_json w Hvalid) as (user & _ & Hrun).
  unfold serve at 2 3. rewrite Hrun. cbn [snd].
  set (w' := written (create_saves request_json user w)
                     (S (ids_of_all (entries_of request_json))) w).
  exists (sorted (values _ (roadmaps (db w'))) Roadmap.created_at true).
  split; [reflexivity|]. split.
  - rewrite sorted_perm. etransitivity; [apply Hvalues|].
    unfold w'. rewrite create_saves_roadmaps.
    rewrite map_to_list_insert by exact Hunused. reflexivity.
  - eapply StronglySorted_mono; [|apply sorted_sorted].
    intros x y. unfold ordered, precedes. lia.
Qed.

Lemma dashboard_after_create_witness :
  ∃ data,
    serve (dashboard listed_values)
          (serve (create_roadmap SampleABC.request) Sample.world).2 =
      (Response (JSON (PList (map Roadmap.to_dict data))) 200,
       (serve (create_roadmap SampleABC.request) Sample.world).2) ∧
    data ≡ₚ [roadmap_of SampleABC.request 0 100; Sample.roadmap].
Proof.
  destruct (dashboard_after_create listed_values SampleABC.request Sample.world)
    as (data & Hserve & Hperm & _).
  - intros A d. reflexivity.
  - reflexivity.
  - reflexivity.
  - exists data. split; [exact Hserve|].
    rewrite Hperm. simpl. rewrite map_to_list_singleton. reflexivity.
Defined.

(** ** What a run of [create_roadmap] leaves alone *)


Lemma objectives_of_made roadmap_id n topic_id start texts :
  handed_from n topic_id → (n ≤ start)%nat →
  Forall (made_in_run roadmap_id n)
         (map OObjectives (objectives_of topic_id start texts)).
Proof.
  intros Htopic. revert start. induction texts as [|text rest IH];
    intros start Hstart; simpl; [constructor|].
  constructor; [|apply IH; lia].
  split; [exists start; split; [exact Hstart|reflexivity]|exact Htopic].
Qed.

Lemma resources_of_made roadmap_id n topic_id start links :
  handed_from n topic_id → (n ≤ start)%nat →
  Forall (made_in_run roadmap_id n)
         (map OResources (resources_of topic_id start links)).
Proof.
  intros Htopic. revert start. induction links as [|link rest IH];
    intros start Hstart; simpl; [constructor|].
  constructor; [|apply IH; lia].
  split; [exists start; split; [exact Hstart|reflexivity]|exact Htopic].
Qed.

(** Whether it completes or raises, the loop over the topics saves only
    objects made in the run. *)
Lemma save_topics_made roadmap position entries w n :
  (n ≤ next_id w)%nat →
  ∃ os k,
    (save_topics roadmap position entries w).2 = written os k w ∧
    Forall (made_in_run (Roadmap.id roadmap) n) os.
Proof.
  revert position w. induction entries as [|topic_data rest IH];
    intros position w Hn; simpl.
  - exists [], 0%nat. rewrite written_nil. split; [reflexivity|constructor].
  - unfold bind, lift, new_Topic. unfold bind, ret.
    destruct (py_getitem topic_data "TopicName");
      [exists [], 0%nat; rewrite written_nil; split; [reflexivity|constructor]|].
    destruct (py_getitem topic_data "Descriptions");
      [exists [], 0%nat; rewrite written_nil; split; [reflexivity|constructor]|].
    destruct (py_getitem topic_data "Milestones");
      [exists [], 0%nat; rewrite written_nil; split; [reflexivity|constructor]|].
    rewrite new_id_written.
    assert (Htopic : handed_from n (uuid4 (next_id w))).
    { exists (next_id w). split; [exact Hn|reflexivity]. }
    destruct (py_items topic_data "LearningObjectives") as [|texts];
      [exists [], 1%nat; split; [reflexivity|constructor]|].
    rewrite save_objectives_written.
    assert (Hobjectives : Forall (made_in_run (Roadmap.id roadmap) n)
              (map OObjectives
                 (objectives_of (uuid4 (next_id w)) (next_id (written [] 1 w)) texts))).
    { apply objectives_of_made; [exact Htopic|simpl; lia]. }
    destruct (py_items topic_data "Resources") as [|links].
    { eexists _, _. simpl. rewrite written_written.
      split; [reflexivity|exact Hobjectives]. }
    rewrite save_resources_written, save_written.
    match goal with |- context [resources_of ?tid ?start links] =>
      assert (Hresources : Forall (made_in_run (Roadmap.id roadmap) n)
                (map OResources (resources_of tid start links)))
        by (apply resources_of_made; [exact Htopic|simpl; lia])
    end.
    match goal with |- context [save_topics _ ?p _ ?w1] =>
      destruct (IH p w1) as (os & k & Hw & Hos); [simpl; lia|];
      destruct (save_topics roadmap p rest w1) as [[e|[]] w2] eqn:Hrun
    end; simpl in Hw; subst w2; rewrite !written_written;
      (eexists _, _; split; [reflexivity|]);
      repeat apply Forall_app_2;
      first [ exact Hobjectives | exact Hresources | exact Hos
            | apply Forall_nil_2
            | apply Forall_singleton; split; [exact Htopic|reflexivity] ].
Qed.

(** The objects a run of [create_roadmap] saves: the new roadmap, objects
    made in the run, and the stored user of the request. *)
Lemma create_roadmap_made request_json w :
  ∃ os k,
    (create_roadmap request_json w).2 = written os k w ∧
    Forall (λ o,
              o = ORoadmap (roadmap_of request_json (next_id w) (clock w)) ∨
              made_in_run (uuid4 (next_id w)) (next_id w) o ∨
              ∃ user, o = OUser user ∧
                      (storage.show_User (dict_get request_json "user_id") w).1
                      = inr (Some user)) os.
Proof.
  unfold create_roadmap, storage.show_User. unfold bind, lift, new_Roadmap.
  unfold bind, ret. cbv beta zeta. cbn [fst].
  destruct (truthy (dict_get request_json "user_id")); cbn [negb];
    [|exists [], 0%nat; rewrite written_nil; split; [reflexivity|constructor]].
  destruct (truthy (dict_get request_json "Roadmap")); cbn [negb];
    [|exists [], 0%nat; rewrite written_nil; split; [reflexivity|constructor]].
  cbv beta iota zeta.
  destruct (match dict_get request_json "user_id" with
            | JStr s => users (db w) !! s
            | _ => None
            end) as [user|];
    [|exists [], 0%nat; rewrite written_nil; split; [reflexivity|constructor]].
  cbv beta iota zeta. unfold roadmap_of. cbv zeta.
  destruct (py_getitem _ "Title");
    [exists [], 0%nat; rewrite written_nil; split; [reflexivity|constructor]|].
  destruct (py_getitem _ "Introduction");
    [exists [], 0%nat; rewrite written_nil; split; [reflexivity|constructor]|].
  destruct (py_getitem _ "AdditionalInfo");
    [exists [], 0%nat; rewrite written_nil; split; [reflexivity|constructor]|].
  cbv beta iota zeta. rewrite new_id_written. cbv beta iota zeta.
  rewrite save_written.
  destruct (py_items _ "Topics") as [|entries]; cbv beta iota zeta.
  { eexists _, _. rewrite written_written. split; [reflexivity|].
    apply Forall_singleton. left. reflexivity. }
  match goal with |- context [save_topics ?r ?p _ ?w1] =>
    destruct (save_topics_made r p entries w1 (next_id w)) as (os & k & Hw & Hos);
      [simpl; lia|];
    destruct (save_topics r p entries w1) as [[e|[]] w2] eqn:Hrun
  end; simpl in Hw; subst w2; cbv beta iota zeta;
    rewrite ?save_written, !written_written;
    (eexists _, _; split; [reflexivity|]);
    simpl; (constructor; [left; reflexivity|]);
    repeat apply Forall_app_2;
    first [ apply Forall_nil_2
          | eapply Forall_impl; [exact Hos|]; intros o Ho; right; left; exact Ho
          | apply Forall_singleton; right; right; eexists; split; reflexivity ].
Qed.

(** A lookup after some saves finds what it found before, or a saved
    object of that id. *)
Lemma persist_all_roadmaps_cases os t k :
  roadmaps (persist_all os t) !! k = roadmaps t !! k ∨
  ∃ x, ORoadmap x ∈ os ∧ Roadmap.id x = k.
Proof.
  unfold persist_all. revert t. induction os as [|o os IH]; intros t; simpl;
    [left; reflexivity|].
  destruct (IH (storage.persist o t)) as [->|(x & Hx & Hk)];
    [|right; exists x; split; [right; exact Hx|exact Hk]].
  destruct o as [| r | | |]; simpl; try (left; reflexivity).
  destruct (decide (Roadmap.id r = k)) as [Heq|Hne].
  - right. exists r. split; [left|exact Heq].
  - left. apply lookup_insert_ne. exact Hne.
Qed.

Lemma persist_all_topics_cases os t k :
  topics (persist_all os t) !! k = topics t !! k ∨
  ∃ x, OTopic x ∈ os ∧ Topic.id x = k.
Proof.
  unfold persist_all. revert t. induction os as [|o os IH]; intros t; simpl;
    [left; reflexivity|].
  destruct (IH (storage.persist o t)) as [->|(x & Hx & Hk)];
    [|right; exists x; split; [right; exact Hx|exact Hk]].
  destruct o as [| | r | |]; simpl; try (left; reflexivity).
  destruct (decide (Topic.id r = k)) as [Heq|Hne].
  - right. exists r. split; [left|exact Heq].
  - left. apply lookup_insert_ne. exact Hne.
Qed.

Lemma persist_all_objectives_cases os t k :
  objectives (persist_all os t) !! k = objectives t !! k ∨
  ∃ x, OObjectives x ∈ os ∧ Objectives.id x = k.
Proof.
  unfold persist_all. revert t. induction os as [|o os IH]; intros t; simpl;
    [left; reflexivity|].
  destruct (IH (storage.persist o t)) as [->|(x & Hx & Hk)];
    [|right; exists x; split; [right; exact Hx|exact Hk]].
  destruct o as [| | | r |]; simpl; try (left; reflexivity).
  destruct (decide (Objectives.id r = k)) as [Heq|Hne].
  - right. exists r. split; [left|exact Heq].
  - left. apply lookup_insert_ne. exact Hne.
Qed.

Lemma persist_all_resources_cases os t k :
  resources (persist_all os t) !! k = resources t !! k ∨
  ∃ x, OResources x ∈ os ∧ Resources.id x = k.
Proof.
  unfold persist_all. revert t. induction os as [|o os IH]; intros t; simpl;
    [left; reflexivity|].
  destruct (IH (storage.persist o t)) as [->|(x & Hx & Hk)];
    [|right; exists x; split; [right; exact Hx|exact Hk]].
  destruct o as [| | | | r]; simpl; try (left; reflexivity).
  destruct (decide (Resources.id r = k)) as [Heq|Hne].
  - right. exists r. split; [left|exact Heq].
  - left. apply lookup_insert_ne. exact Hne.
Qed.

(** Saving users that are stored under their ids leaves the users as
    they are. *)
Lemma persist_all_users_same os t :
  Forall (λ o, ∀ u, o = OUser u → users t !! User.id u = Some u) os →
  users (persist_all os t) = users t.
Proof.
  unfold persist_all. revert t. induction os as [|o os IH]; intros t Hos; simpl;
    [reflexivity|].
  apply Forall_cons in Hos as [Ho Hos].
  assert (Hsame : users (storage.persist o t) = users t).
  { destruct o as [u| | | |]; simpl; try reflexivity.
    apply insert_id, Ho. reflexivity. }
  rewrite IH; [exact Hsame|].
  eapply Forall_impl; [exact Hos|]. intros o' Ho' u Hu. rewrite Hsame. auto.
Qed.

(** The stored objects a run leaves alone. *)
Lemma create_roadmap_frame request_json w :
  keyed (db w) →
  unused_ids w →
  users (db (create_roadmap request_json w).2) = users (db w) ∧
  (∀ k x, roadmaps (db w) !! k = Some x →
          roadmaps (db (create_roadmap request_json w).2) !! k = Some x) ∧
  (∀ k x, topics (db w) !! k = Some x →
          topics (db (create_roadmap request_json w).2) !! k = Some x) ∧
  (∀ k x, objectives (db w) !! k = Some x →
          objectives (db (create_roadmap request_json w).2) !! k = Some x) ∧
  (∀ k x, resources (db w) !! k = Some x →
          resources (db (create_roadmap request_json w).2) !! k = Some x).
Proof.
  intros Hkeyed Hunused.
  destruct (create_roadmap_made request_json w) as (os & n & -> & Hos).
  unfold written. cbn [db].
  rewrite Forall_forall in Hos.
  assert (Hnew : ∀ o, o ∈ os →
            (∃ u, o = OUser u) ∨ handed_from (next_id w) (object_id o)).
  { intros o Ho. destruct (Hos o Ho) as [->|[[Hid _]|(u & -> & _)]].
    - right. exists (next_id w). split; [lia|reflexivity].
    - right. exact Hid.
    - left. eexists. reflexivity. }
  split; [|split; [|split; [|split]]].
  - apply persist_all_users_same, Forall_forall. intros o Ho u ->.
    destruct (Hos _ Ho) as [Heq|[[_ Hfalse]|(u' & Heq & Hshow)]];
      [discriminate Heq|contradiction|].
    injection Heq as <-. unfold storage.show_User in Hshow. simpl in Hshow.
    injection Hshow as Hshow.
    destruct (dict_get request_json "user_id") as [| | |s| |]; try discriminate.
    destruct Hkeyed as (Husers & _). rewrite (Husers _ _ Hshow). exact Hshow.
  - intros k x Hx.
    destruct (persist_all_roadmaps_cases os (db w) k) as [->|(y & Hy & <-)];
      [exact Hx|].
    destruct (Hnew _ Hy) as [[u Hu]|Hid]; [discriminate Hu|].
    destruct (Hunused _ Hid) as (Hnone & _). simpl in Hnone. congruence.
  - intros k x Hx.
    destruct (persist_all_topics_cases os (db w) k) as [->|(y & Hy & <-)];
      [exact Hx|].
    destruct (Hnew _ Hy) as [[u Hu]|Hid]; [discriminate Hu|].
    destruct (Hunused _ Hid) as (_ & Hnone & _). simpl in Hnone. congruence.
  - intros k x Hx.
    destruct (persist_all_objectives_cases os (db w) k) as [->|(y & Hy & <-)];
      [exact Hx|].
    destruct (Hnew _ Hy) as [[u Hu]|Hid]; [discriminate Hu|].
    destruct (Hunused _ Hid) as (_ & _ & Hnone & _). simpl in Hnone. congruence.
  - intros k x Hx.
    destruct (persist_all_resources_cases os (db w) k) as [->|(y & Hy & <-)];
      [exact Hx|].
    destruct (Hnew _ Hy) as [[u Hu]|Hid]; [discriminate Hu|].
    destruct (Hunused _ Hid) as (_ & _ & _ & Hnone & _). simpl in Hnone. congruence.
Qed.

(** X17.  A run of [create_roadmap], whether it completes or raises
    midway, changes and removes no stored object: the users are as
    before, and every roadmap, topic, objective and resource stored
    before is stored unchanged after. *)
Theorem create_roadmap_keeps_stored request_json w :
  keyed (db w) →
  unused_ids w →
  users (db (create_roadmap request_json w).2) = users (db w) ∧
  (∀ k x, roadmaps (db w) !! k = Some x →
          roadmaps (db (create_roadmap request_json w).2) !! k = Some x) ∧
  (∀ k x, topics (db w) !! k = Some x →
          topics (db (create_roadmap request_json w).2) !! k = Some x) ∧
  (∀ k x, objectives (db w) !! k = Some x →
          objectives (db (create_roadmap request_json w).2) !! k = Some x) ∧
  (∀ k x, resources (db w) !! k = Some x →
          resources (db (create_roadmap request_json w).2) !! k = Some x).
Proof. apply create_roadmap_frame. Qed.

Ltac solve_unused :=
  intros ? (m & Hm & ->); simpl in Hm;
  repeat split; simpl;
  repeat first
    [ apply lookup_empty
    | apply map_Forall_empty
    | apply lookup_singleton_ne; intros Heq; apply (inj uuid4) in Heq; lia
    | apply map_Forall_singleton; simpl; intros Heq; apply (inj uuid4) in Heq; lia ].

Lemma create_roadmap_keeps_stored_witness :
  users (db (create_roadmap SampleLacking.no_topics SampleStored.world).2)
    = {["u1" := Sample.user]} ∧
  roadmaps (db (create_roadmap SampleLacking.no_topics SampleStored.world).2)
    !! uuid4 0 = Some SampleStored.roadmap ∧
  topics (db (create_roadmap SampleLacking.no_topics SampleStored.world).2)
    !! uuid4 1 = Some SampleStored.topic.
Proof.
  destruct (create_roadmap_keeps_stored SampleLacking.no_topics SampleStored.world)
    as (Husers & Hroadmaps & Htopics & _).
  - solve_keyed.
  - solve_unused.
  - split; [exact Husers|]. split; [apply Hroadmaps|apply Htopics]; reflexivity.
Defined.

(** A filter finds the same in a table that grew only by entries it
    rejects. *)
Lemma filter_unaffected {A} (P : string * A → Prop) `{!∀ kv, Decision (P kv)}
    (T T' : gmap string A) :
  (∀ k, T' !! k = T !! k ∨ (T !! k = None ∧ ∀ x, T' !! k = Some x → ¬ P (k, x))) →
  filter P T' = filter P T.
Proof.
  intros Hext. apply map_eq. intros k. rewrite !map_lookup_filter.
  destruct (Hext k) as [->|[Hnone Hnot]]; [reflexivity|].
  rewrite Hnone. simpl. destruct (T' !! k) as [x|] eqn:E; simpl; [|reflexivity].
  rewrite option_guard_False; [reflexivity|]. apply Hnot. reflexivity.
Qed.

(** What a lookup finds after some saves was there before or was saved. *)
Lemma persist_all_topics_origin os t k x :
  topics (persist_all os t) !! k = Some x → topics t !! k = Some x ∨ OTopic x ∈ os.
Proof.
  unfold persist_all. revert t. induction os as [|o os IH]; intros t Hx; simpl in *;
    [left; exact Hx|].
  destruct (IH _ Hx) as [Hhere|Hin]; [|right; right; exact Hin].
  destruct o as [| | y | |]; simpl in Hhere; try (left; exact Hhere).
  destruct (decide (Topic.id y = k)) as [<-|Hne].
  - rewrite lookup_insert_eq in Hhere. injection Hhere as ->. right. left.
  - rewrite lookup_insert_ne in Hhere by exact Hne. left. exact Hhere.
Qed.

Lemma persist_all_objectives_origin os t k x :
  objectives (persist_all os t) !! k = Some x →
  objectives t !! k = Some x ∨ OObjectives x ∈ os.
Proof.
  unfold persist_all. revert t. induction os as [|o os IH]; intros t Hx; simpl in *;
    [left; exact Hx|].
  destruct (IH _ Hx) as [Hhere|Hin]; [|right; right; exact Hin].
  destruct o as [| | | y |]; simpl in Hhere; try (left; exact Hhere).
  destruct (decide (Objectives.id y = k)) as [<-|Hne].
  - rewrite lookup_insert_eq in Hhere. injection Hhere as ->. right. left.
  - rewrite lookup_insert_ne in Hhere by exact Hne. left. exact Hhere.
Qed.

Lemma persist_all_resources_origin os t k x :
  resources (persist_all os t) !! k = Some x →
  resources t !! k = Some x ∨ OResources x ∈ os.
Proof.
  unfold persist_all. revert t. induction os as [|o os IH]; intros t Hx; simpl in *;
    [left; exact Hx|].
  destruct (IH _ Hx) as [Hhere|Hin]; [|right; right; exact Hin].
  destruct o as [| | | | y]; simpl in Hhere; try (left; exact Hhere).
  destruct (decide (Resources.id y = k)) as [<-|Hne].
  - rewrite lookup_insert_eq in Hhere. injection Hhere as ->. right. left.
  - rewrite lookup_insert_ne in Hhere by exact Hne. left. exact Hhere.
Qed.

(** The loop of [view_roadmap] finds the same in two worlds whose
    fetches for the topics agree. *)
Lemma collect_agree values l objectives resources w w' :
  Forall (λ i,
            (storage.fetch_Objectives (Topic.id i) w').1
              = (storage.fetch_Objectives (Topic.id i) w).1 ∧
            (storage.fetch_Resources (Topic.id i) w').1
              = (storage.fetch_Resources (Topic.id i) w).1) l →
  (collect values l objectives resources w').1
  = (collect values l objectives resources w).1.
Proof.
  revert objectives resources. induction l as [|i rest IH];
    intros objectives resources Hl; simpl; [reflexivity|].
  apply Forall_cons in Hl as [[Ho Hr] Hl].
  unfold bind, storage.fetch_Objectives, storage.fetch_Resources in *.
  simpl in Ho, Hr. injection Ho as Ho. injection Hr as Hr.
  rewrite Ho, Hr. apply IH, Hl.
Qed.

(** X18.  A run of [create_roadmap], whether it completes or raises
    midway, does not change what [view_roadmap] answers for a roadmap
    stored before: the topics, objectives and resources of the new
    roadmap do not show up under another roadmap. *)
Theorem create_roadmap_keeps_views values request_json w roadmap_id roadmap :
  iteration_order values →
  keyed (db w) →
  unused_ids w →
  roadmaps (db w) !! roadmap_id = Some roadmap →
  (serve (view_roadmap values roadmap_id) (create_roadmap request_json w).2).1
  = (serve (view_roadmap values roadmap_id) w).1.
Proof.
  intros Hvalues Hkeyed Hunused Hsome.
  destruct (create_roadmap_frame request_json w Hkeyed Hunused)
    as (_ & Hroadmaps & _).
  pose proof (Hroadmaps _ _ Hsome) as Hsome'.
  destruct (create_roadmap_made request_json w) as (os & n & Hw & Hos).
  set (w' := (create_roadmap request_json w).2) in *.
  assert (Hdb : db w' = persist_all os (db w)) by (rewrite Hw; reflexivity).
  pose proof Hkeyed as (_ & Hkr & Hkt & _).
  assert (Hid : Roadmap.id roadmap = roadmap_id) by exact (Hkr _ _ Hsome).
  rewrite Forall_forall in Hos.
  assert (Hmade : ∀ o, o ∈ os → (∀ u, o ≠ OUser u) → (∀ r, o ≠ ORoadmap r) →
                       made_in_run (uuid4 (next_id w)) (next_id w) o).
  { intros o Ho Hu Hr. destruct (Hos o Ho) as [->|[Hm|(u & -> & _)]];
      [exfalso; eapply Hr; reflexivity|exact Hm|exfalso; eapply Hu; reflexivity]. }
  assert (Htopics :
    filter (λ kv, Topic.roadmap_id kv.2 = Roadmap.id roadmap) (topics (db w'))
    = filter (λ kv, Topic.roadmap_id kv.2 = Roadmap.id roadmap) (topics (db w))).
  { apply filter_unaffected. intros k. rewrite Hdb.
    destruct (persist_all_topics_cases os (db w) k) as [Heq|(y & Hy & Hk)];
      [left; exact Heq|].
    right. destruct (Hmade _ Hy) as [Hnew _]; [discriminate..|].
    simpl in Hnew. rewrite Hk in Hnew.
    destruct (Hunused _ Hnew) as (_ & Hnone & _).
    split; [exact Hnone|]. intros x Hx.
    apply persist_all_topics_origin in Hx as [Hold|Hin]; [congruence|].
    destruct (Hmade _ Hin) as [_ Hparent]; [discriminate..|].
    simpl in *. rewrite Hparent, Hid. intros Heq.
    destruct (Hunused (uuid4 (next_id w))) as (Hfree & _);
      [exists (next_id w); split; [lia|reflexivity]|].
    rewrite Heq in Hfree. congruence. }
  unfold serve, view_roadmap. unfold bind, storage.show_Roadmap, storage.fetch_Topic.
  rewrite Hsome, Hsome', Htopics.
  set (L := values _ (filter (λ kv, Topic.roadmap_id kv.2 = Roadmap.id roadmap)
                             (topics (db w)))).
  assert (Hagree : (collect values L [] [] w').1 = (collect values L [] [] w).1).
  { apply collect_agree, Forall_forall. intros i Hi.
    unfold L in Hi. rewrite (Hvalues _ _) in Hi.
    apply list_elem_of_fmap in Hi as ([k i'] & -> & Hi).
    apply elem_of_map_to_list, map_lookup_filter_Some in Hi as [Hi _]. simpl.
    assert (Hki : Topic.id i' = k) by exact (Hkt _ _ Hi).
    assert (Hstored : ∀ id, handed_from (next_id w) id → id ≠ Topic.id i').
    { intros id Hnew ->. destruct (Hunused _ Hnew) as (_ & Hnone & _).
      rewrite Hki in Hnone. congruence. }
    unfold storage.fetch_Objectives, storage.fetch_Resources. simpl.
    split; f_equal; apply filter_unaffected; intros k2; rewrite Hdb.
    - destruct (persist_all_objectives_cases os (db w) k2) as [Heq|(y & Hy & Hk)];
        [left; exact Heq|].
      right. destruct (Hmade _ Hy) as [Hnew _]; [discriminate..|].
      simpl in Hnew. rewrite Hk in Hnew.
      destruct (Hunused _ Hnew) as (_ & _ & Hnone & _).
      split; [exact Hnone|]. intros x Hx.
      apply persist_all_objectives_origin in Hx as [Hold|Hin]; [congruence|].
      destruct (Hmade _ Hin) as [_ Hparent]; [discriminate..|].
      simpl in *. apply Hstored, Hparent.
    - destruct (persist_all_resources_cases os (db w) k2) as [Heq|(y & Hy & Hk)];
        [left; exact Heq|].
      right. destruct (Hmade _ Hy) as [Hnew _]; [discriminate..|].
      simpl in Hnew. rewrite Hk in Hnew.
      destruct (Hunused _ Hnew) as (_ & _ & _ & Hnone & _).
      split; [exact Hnone|]. intros x Hx.
      apply persist_all_resources_origin in Hx as [Hold|Hin]; [congruence|].
      destruct (Hmade _ Hin) as [_ Hparent]; [discriminate..|].
      simpl in *. apply Hstored, Hparent. }
  destruct (collect_total values L [] [] w) as [found Hfound].
  destruct (collect_total values L [] [] w') as [found' Hfound'].
  rewrite Hfound, Hfound' in *. simpl in Hagree. injection Hagree as ->.
  reflexivity.
Qed.

Lemma create_roadmap_keeps_views_witness :
  (serve (view_roadmap reversed_values (uuid4 0))
         (create_roadmap SampleABC.request SampleStored.world).2).1
  = (serve (view_roadmap reversed_values (uuid4 0)) SampleStored.world).1.
Proof.
  apply (create_roadmap_keeps_views reversed_values SampleABC.request
           SampleStored.world (uuid4 0) SampleStored.roadmap).
  - intros A d. unfold reversed_values. apply reverse_Permutation.
  - solve_keyed.
  - solve_unused.
  - reflexivity.
Defined.

(** ** Objectives and resources, from the request to the view *)

Lemma objectives_persist_all os t :
  objectives (persist_all os t) =
    foldl (λ m x, <[Objectives.id x := x]> m) (objectives t) (omap the_objective os).
Proof.
  unfold persist_all. revert t.
  induction os as [|o os IH]; intros t; simpl; [reflexivity|].
  rewrite IH. destruct o; reflexivity.
Qed.

Lemma resources_persist_all os t :
  resources (persist_all os t) =
    foldl (λ m x, <[Resources.id x := x]> m) (resources t) (omap the_resource os).
Proof.
  unfold persist_all. revert t.
  induction os as [|o os IH]; intros t; simpl; [reflexivity|].
  rewrite IH. destruct o; reflexivity.
Qed.

Lemma omap_the_objective_objectives l : omap the_objective (map OObjectives l) = l.
Proof. induction l as [|x l IH]; simpl; [reflexivity|]. f_equal. exact IH. Qed.

Lemma omap_the_objective_resources l : omap the_objective (map OResources l) = [].
Proof. induction l; simpl; auto. Qed.

Lemma omap_the_resource_objectives l : omap the_resource (map OObjectives l) = [].
Proof. induction l; simpl; auto. Qed.

Lemma omap_the_resource_resources l : omap the_resource (map OResources l) = l.
Proof. induction l as [|x l IH]; simpl; [reflexivity|]. f_equal. exact IH. Qed.

Lemma objectives_of_topics_saves roadmap_id n position entries :
  omap the_objective (topics_saves roadmap_id n position entries) =
    planned_objectives n entries.
Proof.
  revert n position. induction entries as [|topic_data rest IH];
    intros n position; simpl; [reflexivity|].
  unfold topic_saves.
  rewrite !omap_app, omap_the_objective_objectives, omap_the_objective_resources, IH.
  simpl. rewrite app_nil_r. reflexivity.
Qed.

Lemma resources_of_topics_saves roadmap_id n position entries :
  omap the_resource (topics_saves roadmap_id n position entries) =
    planned_resources n entries.
Proof.
  revert n position. induction entries as [|topic_data rest IH];
    intros n position; simpl; [reflexivity|].
  unfold topic_saves.
  rewrite !omap_app, omap_the_resource_objectives, omap_the_resource_resources, IH.
  simpl. rewrite app_nil_r. reflexivity.
Qed.

Lemma objectives_of_names topic_id n texts :
  map Objectives.name (objectives_of topic_id n texts) = texts.
Proof.
  revert n. induction texts as [|text rest IH]; intros n; simpl; [reflexivity|].
  rewrite IH. reflexivity.
Qed.

Lemma resources_of_links topic_id n links :
  map Resources.link (resources_of topic_id n links) = links.
Proof.
  revert n. induction links as [|link rest IH]; intros n; simpl; [reflexivity|].
  rewrite IH. reflexivity.
Qed.

Lemma objectives_of_ids topic_id n texts :
  map Objectives.id (objectives_of topic_id n texts) = map uuid4 (seq n (length texts)).
Proof.
  revert n. induction texts as [|text rest IH]; intros n; simpl; [reflexivity|].
  rewrite IH. reflexivity.
Qed.

Lemma resources_of_ids topic_id n links :
  map Resources.id (resources_of topic_id n links) = map uuid4 (seq n (length links)).
Proof.
  revert n. induction links as [|link rest IH]; intros n; simpl; [reflexivity|].
  rewrite IH. reflexivity.
Qed.

Lemma planned_objectives_names n entries :
  map Objectives.name (planned_objectives n entries) = entries ≫= texts_of.
Proof.
  revert n. induction entries as [|topic_data rest IH]; intros n; simpl;
    [reflexivity|].
  rewrite map_app, objectives_of_names, IH. reflexivity.
Qed.

Lemma planned_resources_links n entries :
  map Resources.link (planned_resources n entries) = entries ≫= links_of.
Proof.
  revert n. induction entries as [|topic_data rest IH]; intros n; simpl;
    [reflexivity|].
  rewrite map_app, resources_of_links, IH. reflexivity.
Qed.

(** The ids of the planned objectives and resources lie in the range of
    the run. *)
Lemma planned_objectives_ids n entries :
  Forall (λ id, ∃ m, (n ≤ m < n + ids_of_all entries)%nat ∧ id = uuid4 m)
         (map Objectives.id (planned_objectives n entries)).
Proof.
  revert n. induction entries as [|topic_data rest IH]; intros n; simpl;
    [constructor|].
  rewrite map_app, objectives_of_ids. apply Forall_app_2.
  - apply Forall_fmap, Forall_forall. intros m Hm. apply elem_of_seq in Hm.
    exists m. split; [unfold ids_of; lia|reflexivity].
  - eapply Forall_impl; [apply IH|]. intros id (m & Hm & ->).
    exists m. split; [unfold ids_of in *; lia|reflexivity].
Qed.

Lemma planned_resources_ids n entries :
  Forall (λ id, ∃ m, (n ≤ m < n + ids_of_all entries)%nat ∧ id = uuid4 m)
         (map Resources.id (planned_resources n entries)).
Proof.
  revert n. induction entries as [|topic_data rest IH]; intros n; simpl;
    [constructor|].
  rewrite map_app, resources_of_ids. apply Forall_app_2.
  - apply Forall_fmap, Forall_forall. intros m Hm. apply elem_of_seq in Hm.
    exists m. split; [unfold ids_of; lia|reflexivity].
  - eapply Forall_impl; [apply IH|]. intros id (m & Hm & ->).
    exists m. split; [unfold ids_of in *; lia|reflexivity].
Qed.

Lemma planned_objectives_NoDup n entries :
  NoDup (map Objectives.id (planned_objectives n entries)).
Proof.
  revert n. induction entries as [|topic_data rest IH]; intros n; simpl;
    [constructor|].
  rewrite map_app, objectives_of_ids. apply NoDup_app. split; [|split].
  - apply (NoDup_fmap_2 uuid4), NoDup_seq.
  - intros id Hin Hrest. apply list_elem_of_fmap in Hin as (m & -> & Hm).
    apply elem_of_seq in Hm.
    pose proof (planned_objectives_ids (n + ids_of topic_data) rest) as Hids.
    rewrite Forall_forall in Hids. destruct (Hids _ Hrest) as (m' & Hm' & Heq).
    apply (inj uuid4) in Heq. unfold ids_of in Hm'. lia.
  - apply IH.
Qed.

Lemma planned_resources_NoDup n entries :
  NoDup (map Resources.id (planned_resources n entries)).
Proof.
  revert n. induction entries as [|topic_data rest IH]; intros n; simpl;
    [constructor|].
  rewrite map_app, resources_of_ids. apply NoDup_app. split; [|split].
  - apply (NoDup_fmap_2 uuid4), NoDup_seq.
  - intros id Hin Hrest. apply list_elem_of_fmap in Hin as (m & -> & Hm).
    apply elem_of_seq in Hm.
    pose proof (planned_resources_ids (n + ids_of topic_data) rest) as Hids.
    rewrite Forall_forall in Hids. destruct (Hids _ Hrest) as (m' & Hm' & Heq).
    apply (inj uuid4) in Heq. unfold ids_of in Hm'. lia.
  - apply IH.
Qed.

(** Each planned objective and resource is of one of the planned topics. *)
Lemma planned_objectives_parents roadmap_id n position entries :
  Forall (λ x, Objectives.topic_id x
               ∈ map Topic.id (planned_topics roadmap_id n position entries))
         (planned_objectives n entries).
Proof.
  revert n position. induction entries as [|topic_data rest IH];
    intros n position; simpl; [constructor|].
  apply Forall_app_2.
  - eapply Forall_impl; [apply objectives_of_parent|]. intros x ->. left.
  - eapply Forall_impl; [apply IH|]. intros x Hx. right. exact Hx.
Qed.

Lemma planned_resources_parents roadmap_id n position entries :
  Forall (λ x, Resources.topic_id x
               ∈ map Topic.id (planned_topics roadmap_id n position entries))
         (planned_resources n entries).
Proof.
  revert n position. induction entries as [|topic_data rest IH];
    intros n position; simpl; [constructor|].
  apply Forall_app_2.
  - eapply Forall_impl; [apply resources_of_parent|]. intros x ->. left.
  - eapply Forall_impl; [apply IH|]. intros x Hx. right. exact Hx.
Qed.

Section tables.
Context {A : Type} (id_of : A → string).

Lemma foldl_insert_other (T0 : gmap string A) xs k :
  k ∉ map id_of xs →
  foldl (λ m x, <[id_of x := x]> m) T0 xs !! k = T0 !! k.
Proof.
  revert T0. induction xs as [|x xs IH]; intros T0 Hk; simpl; [reflexivity|].
  simpl in Hk. apply not_elem_of_cons in Hk as [Hne Hk].
  rewrite IH by assumption. apply lookup_insert_ne. congruence.
Qed.

(** What a fetch finds among objects written under new ids into a table
    in which it found nothing. *)
Lemma fetch_inserted (P : A → Prop) `{!∀ x, Decision (P x)}
    (T0 : gmap string A) xs :
  NoDup (map id_of xs) →
  Forall (λ x, T0 !! id_of x = None) xs →
  map_Forall (λ _ x, ¬ P x) T0 →
  (map_to_list (filter (λ kv, P kv.2)
                       (foldl (λ m x, <[id_of x := x]> m) T0 xs))).*2
  ≡ₚ filter P xs.
Proof.
  intros Hnodup Hfresh Hold.
  induction xs as [|x xs IH] using rev_ind; simpl.
  - rewrite map_empty_filter_2, map_to_list_empty; [reflexivity|].
    intros k y Hy. simpl. exact (Hold k y Hy).
  - rewrite map_app in Hnodup. simpl in Hnodup.
    apply NoDup_app in Hnodup as (Hnodup & Hdisjoint & _).
    apply Forall_app in Hfresh as [Hfresh Hx].
    rewrite Forall_singleton in Hx.
    assert (Hnotin : id_of x ∉ map id_of xs).
    { intros Hin. apply (Hdisjoint _ Hin). left. }
    assert (Hnone : foldl (λ m x, <[id_of x := x]> m) T0 xs !! id_of x = None).
    { rewrite foldl_insert_other by assumption. exact Hx. }
    rewrite foldl_app, filter_app. simpl.
    destruct (decide (P x)) as [HP|HP].
    + rewrite map_filter_insert_True by exact HP.
      rewrite map_to_list_insert
        by (apply map_lookup_filter_None_2; left; exact Hnone).
      rewrite fmap_cons. simpl. rewrite IH by assumption.
      rewrite (filter_cons_True P x []) by exact HP.
      apply Permutation_cons_append.
    + rewrite map_filter_insert_False by exact HP.
      rewrite delete_id by exact Hnone. rewrite IH by assumption.
      rewrite (filter_cons_False P x []) by exact HP.
      rewrite filter_nil, app_nil_r. reflexivity.
Qed.

End tables.

Section partition.
Context {A B : Type} (parent : A → string) (id_of : B → string).

Lemma bind_filter_cons_other x xs ts :
  parent x ∉ map id_of ts →
  ts ≫= (λ t, filter (λ y, parent y = id_of t) (x :: xs))
  = ts ≫= (λ t, filter (λ y, parent y = id_of t) xs).
Proof.
  induction ts as [|t ts IH]; intros Hnotin; [reflexivity|].
  simpl in Hnotin. apply not_elem_of_cons in Hnotin as [Hne Hnotin].
  rewrite !bind_cons, IH by exact Hnotin.
  rewrite filter_cons_False by exact Hne. reflexivity.
Qed.

Lemma bind_filter_cons x xs ts :
  NoDup (map id_of ts) → parent x ∈ map id_of ts →
  ts ≫= (λ t, filter (λ y, parent y = id_of t) (x :: xs))
  ≡ₚ x :: (ts ≫= (λ t, filter (λ y, parent y = id_of t) xs)).
Proof.
  induction ts as [|t ts IH]; intros Hnodup Hin; [inversion Hin|].
  simpl in Hnodup. apply NoDup_cons in Hnodup as [Ht Hnodup].
  rewrite !bind_cons.
  destruct (decide (parent x = id_of t)) as [Heq|Hne].
  - rewrite filter_cons_True by exact Heq.
    rewrite bind_filter_cons_other by (rewrite Heq; exact Ht). reflexivity.
  - rewrite filter_cons_False by exact Hne.
    simpl in Hin. apply elem_of_cons in Hin as [Hin|Hin]; [contradiction|].
    rewrite (IH Hnodup Hin). symmetry. apply Permutation_middle.
Qed.

(** Objects that each name one of some parents of distinct ids are, parent
    by parent, all of them. *)
Lemma bind_filter_parents xs ts :
  NoDup (map id_of ts) →
  Forall (λ x, parent x ∈ map id_of ts) xs →
  ts ≫= (λ t, filter (λ y, parent y = id_of t) xs) ≡ₚ xs.
Proof.
  intros Hnodup. induction xs as [|x xs IH]; intros Hxs.
  - clear. induction ts as [|t ts IH]; [reflexivity|].
    rewrite bind_cons, IH. reflexivity.
  - apply Forall_cons in Hxs as [Hx Hxs].
    rewrite (bind_filter_cons _ _ _ Hnodup Hx), (IH Hxs). reflexivity.
Qed.

End partition.

Lemma bind_Permutation_pointwise {A B} (f g : A → list B) l :
  Forall (λ x, f x ≡ₚ g x) l → l ≫= f ≡ₚ l ≫= g.
Proof.
  induction 1 as [|x l Hx Hl IH]; [reflexivity|].
  rewrite !bind_cons, Hx, IH. reflexivity.
Qed.

(** What the loop of [view_roadmap] collects. *)
Lemma collect_all values l found_objectives found_resources w :
  collect values l found_objectives found_resources w =
    (inr (found_objectives
          ++ (l ≫= λ i, values _ (filter (λ kv, Objectives.topic_id kv.2 = Topic.id i)
                                         (objectives (db w)))),
          found_resources
          ++ (l ≫= λ i, values _ (filter (λ kv, Resources.topic_id kv.2 = Topic.id i)
                                         (resources (db w))))), w).
Proof.
  revert found_objectives found_resources.
  induction l as [|i rest IH]; intros found_objectives found_resources; simpl.
  - unfold ret. rewrite !app_nil_r. reflexivity.
  - unfold bind, storage.fetch_Objectives, storage.fetch_Resources.
    rewrite IH, <- !app_assoc. reflexivity.
Qed.

Lemma create_saves_objectives request_json user k w :
  objectives (db (written (create_saves request_json user w) k w)) =
    foldl (λ m x, <[Objectives.id x := x]> m) (objectives (db w))
          (planned_objectives (S (next_id w)) (entries_of request_json)).
Proof.
  unfold written, create_saves. simpl.
  rewrite objectives_persist_all. simpl.
  rewrite omap_app, objectives_of_topics_saves. simpl.
  rewrite app_nil_r. reflexivity.
Qed.

Lemma create_saves_resources request_json user k w :
  resources (db (written (create_saves request_json user w) k w)) =
    foldl (λ m x, <[Resources.id x := x]> m) (resources (db w))
          (planned_resources (S (next_id w)) (entries_of request_json)).
Proof.
  unfold written, create_saves. simpl.
  rewrite resources_persist_all. simpl.
  rewrite omap_app, resources_of_topics_saves. simpl.
  rewrite app_nil_r. reflexivity.
Qed.

(** X19.  After a valid request was carried through, [view_roadmap] of
    the new roadmap lists under ["objectives"] and ["resources"] the
    learning objectives and the resources of the request's topics, each
    as often as the request has it (in no particular order) and nothing
    else, whatever order the storage hands its objects out in. *)
Theorem created_children_are_listed values request_json w :
  iteration_order values →
  unused_ids w →
  valid_request request_json w = true →
  ∃ resp listed_objectives listed_resources,
    serve (view_roadmap values (uuid4 (next_id w)))
          (create_roadmap request_json w).2
      = (resp, (create_roadmap request_json w).2) ∧
    response_field resp "objectives"
      = Some (PList (map Objectives.to_dict listed_objectives)) ∧
    response_field resp "resources"
      = Some (PList (map Resources.to_dict listed_resources)) ∧
    map Objectives.name listed_objectives ≡ₚ entries_of request_json ≫= texts_of ∧
    map Resources.link listed_resources ≡ₚ entries_of request_json ≫= links_of.
Proof.
  intros Hvalues Hunused Hvalid.
  destruct (create_roadmap_written request_json w Hvalid) as (user & _ & Hrun).
  rewrite Hrun. cbn [snd].
  set (n := next_id w) in *.
  set (entries := entries_of request_json) in *.
  set (w' := written (create_saves request_json user w) (S (ids_of_all entries)) w).
  set (planned := planned_topics (uuid4 n) (S n) 1 entries).
  assert (Hroadmap : roadmaps (db w') !! uuid4 n = Some (roadmap_of request_json n (clock w))).
  { unfold w'. rewrite create_saves_roadmaps. apply lookup_insert_eq. }
  assert (Hplanned_new : ∀ t, t ∈ planned → handed_from n (Topic.id t)).
  { intros t Ht.
    pose proof (planned_topics_ids (uuid4 n) (S n) 1 entries) as Hids.
    rewrite Forall_forall in Hids. destruct (Hids t Ht) as (m & Hm & Hid).
    exists m. split; [lia|exact Hid]. }
  assert (HL : values _ (filter (λ kv, Topic.roadmap_id kv.2 = uuid4 n)
                                (topics (db w'))) ≡ₚ planned).
  { etransitivity; [apply Hvalues|]. unfold w'. rewrite create_saves_topics.
    apply fetch_created.
    - apply planned_topics_NoDup.
    - pose proof (planned_topics_parent (uuid4 n) (S n) 1 entries) as Hparent.
      rewrite Forall_forall in Hparent. apply Forall_forall.
      intros t Ht. split; [|apply Hparent, Ht].
      destruct (Hunused _ (Hplanned_new t Ht)) as (_ & Hnone & _). exact Hnone.
    - destruct (Hunused (uuid4 n)) as (_ & _ & _ & _ & Hold & _);
        [exists n; split; [reflexivity|reflexivity]|exact Hold]. }
  unfold serve, view_roadmap. unfold bind, storage.show_Roadmap, storage.fetch_Topic.
  rewrite Hroadmap. cbn [Roadmap.id roadmap_of].
  rewrite collect_all. cbn [fst snd].
  eexists _, _, _. split; [reflexivity|]. split; [reflexivity|].
  split; [reflexivity|]. rewrite !app_nil_l, HL. split.
  - rewrite <- planned_objectives_names with (n := S n).
    apply fmap_Permutation.
    etransitivity; [|apply (bind_filter_parents Objectives.topic_id Topic.id)].
    + apply bind_Permutation_pointwise, Forall_forall. intros t Ht.
      etransitivity; [apply Hvalues|]. unfold w'. rewrite create_saves_objectives.
      pose proof (fetch_inserted Objectives.id
                    (λ x, Objectives.topic_id x = Topic.id t)) as Hfetch.
      apply Hfetch.
      * apply planned_objectives_NoDup.
      * apply Forall_forall. intros x Hx.
        pose proof (planned_objectives_ids (S n) entries) as Hids.
        rewrite Forall_forall in Hids.
        destruct (Hids (Objectives.id x)) as (m & Hm & Hid);
          [apply list_elem_of_fmap; exists x; split; [reflexivity|exact Hx]|].
        destruct (Hunused (Objectives.id x)) as (_ & _ & Hnone & _);
          [exists m; split; [lia|exact Hid]|exact Hnone].
      * destruct (Hunused _ (Hplanned_new t Ht)) as (_ & _ & _ & _ & _ & Hold & _).
        exact Hold.
    + apply planned_topics_NoDup.
    + apply (planned_objectives_parents (uuid4 n) (S n) 1).
  - rewrite <- planned_resources_links with (n := S n).
    apply fmap_Permutation.
    etransitivity; [|apply (bind_filter_parents Resources.topic_id Topic.id)].
    + apply bind_Permutation_pointwise, Forall_forall. intros t Ht.
      etransitivity; [apply Hvalues|]. unfold w'. rewrite create_saves_resources.
      pose proof (fetch_inserted Resources.id
                    (λ x, Resources.topic_id x = Topic.id t)) as Hfetch.
      apply Hfetch.
      * apply planned_resources_NoDup.
      * apply Forall_forall. intros x Hx.
        pose proof (planned_resources_ids (S n) entries) as Hids.
        rewrite Forall_forall in Hids.
        destruct (Hids (Resources.id x)) as (m & Hm & Hid);
          [apply list_elem_of_fmap; exists x; split; [reflexivity|exact Hx]|].
        destruct (Hunused (Resources.id x)) as (_ & _ & _ & Hnone & _);
          [exists m; split; [lia|exact Hid]|exact Hnone].
      * destruct (Hunused _ (Hplanned_new t Ht)) as (_ & _ & _ & _ & _ & _ & Hold).
        exact Hold.
    + apply planned_topics_NoDup.
    + apply (planned_resources_parents (uuid4 n) (S n) 1).
Qed.

Lemma created_children_are_listed_witness :
  ∃ resp listed_objectives listed_resources,
    serve (view_roadmap reversed_values (uuid4 4))
          (create_roadmap SampleABC.request SampleStored.world).2
      = (resp, (create_roadmap SampleABC.request SampleStored.world).2) ∧
    response_field resp "objectives"
      = Some (PList (map Objectives.to_dict listed_objectives)) ∧
    response_field resp "resources"
      = Some (PList (map Resources.to_dict listed_resources)) ∧
    map Objectives.name listed_objectives
      ≡ₚ entries_of SampleABC.request ≫= texts_of ∧
    map Resources.link listed_resources
      ≡ₚ entries_of SampleABC.request ≫= links_of.
Proof.
  apply (created_children_are_listed reversed_values SampleABC.request
           SampleStored.world).
  - intros A d. unfold reversed_values. apply reverse_Permutation.
  - solve_unused.
  - reflexivity.
Defined.

(** ** Registration: the failures of the auth service *)

(** X20.  When [AUTH.register_user] raises, [register_user] answers a
    [ValueError] with 400 and [{"Error": "Email already registered"}],
    whatever message the error carries; every other exception leaves the
    view as it is and is answered by the application's handlers (the 500
    page for a [KeyError], [TypeError] or [IndexError]).  Nothing is
    rolled back: the
    world is the one the auth service left. *)
Theorem register_user_failures AUTH_register_user form w e w' :
  AUTH_register_user (form_get form "first_name") (form_get form "last_name")
    (form_get form "email") (form_get form "password") w = (inl e, w') →
  serve (register_user AUTH_register_user form) w =
    (match e with
     | ValueError _ =>
         Response (JSON (PDict [("Error", PText [Lit "Email already registered"])]))
                  400
     | KeyError _ | TypeError _ | IndexError _ => Response ErrorPage 500
     | HTTPException _ _ => handle_exception e
     end, w').
Proof.
  intros Hcall.
  unfold serve, register_user. unfold_monad. rewrite Hcall.
  destruct e; reflexivity.
Qed.

Lemma register_user_failures_witness :
  serve (register_user (AUTH.register_user (λ _, Some "$2b$12$hash"))
                       [("email", "ada@example.org"); ("password", "pw")])
        Sample.world =
    (Response (JSON (PDict [("Error", PText [Lit "Email already registered"])])) 400,
     Sample.world).
Proof.
  apply (register_user_failures
           (AUTH.register_user (λ _, Some "$2b$12$hash"))
           [("email", "ada@example.org"); ("password", "pw")]
           Sample.world (ValueError [JStr "User already exists"]) Sample.world).
  vm_compute. reflexivity.
Defined.

(** ** Parents, and the order of the saves *)















